(** * GalleVR, Windows runner: the native window controller and the plugin registrant

    A shallow embedding of

    - [windows/flutter/generated_plugin_registrant.cc] : [RegisterPlugins]
    - [windows/runner/flutter_window.cpp] : [FlutterWindow::OnCreate], the
      first-frame lambda handed to [SetNextFrameCallback],
      [FlutterWindow::OnDestroy] and [FlutterWindow::MessageHandler]

    Member functions become computations in a small state / trace / fault
    monad over the fields of [FlutterWindow].  Every call that leaves the two
    files (the base class [Win32Window], the Flutter embedder API, the Win32
    API, the plugins) is recorded as an [Event]; the values such calls return
    are read from an environment [Env].  Dereferencing a null pointer is the
    fault [NullDeref]. *)

From Stdlib Require Import ZArith List String Bool Lia.
Import ListNotations.

Local Open Scope Z_scope.
Local Open Scope string_scope.
Local Open Scope list_scope.

(** ** Win32 data *)

Definition HWND := Z.
Definition UINT := Z.
Definition WPARAM := Z.
Definition LPARAM := Z.
Definition LRESULT := Z.
(** [SHORT] is a signed 16-bit integer, kept as the [Z] it denotes. *)
Definition SHORT := Z.

Definition WM_CLOSE : UINT := 0x0010.
Definition WM_FONTCHANGE : UINT := 0x001D.
Definition VK_MENU : Z := 0x12.

Record RECT := { left : Z; top : Z; right : Z; bottom : Z }.

(** ** Flutter embedder data *)

Record DartProject := { dart_entrypoint_arguments : list string }.

(** Handles handed out by the embedder.  A C++ pointer to one of them is an
    [option]: [None] is [nullptr]. *)
Inductive FlutterEngine := EngineHandle (id : N).
Inductive FlutterView := ViewHandle (id : N).
Inductive PluginRegistrar := RegistrarHandle (id : N).
Inductive BinaryMessenger := MessengerHandle (id : N).

(** What [engine()] and [view()] of a constructed controller return. *)
Record FlutterViewController := {
  engine : option FlutterEngine;
  view : option FlutterView
}.

Inductive MethodCodec := StandardMethodCodec | JsonMethodCodec.
(** Argument values of a method call; the runner only ever passes [nullptr]. *)
Inductive EncodableValue := EncodableNull | EncodableString (s : string).
(** A result handler of a method call; the runner only ever passes none. *)
Inductive MethodResult := MethodResultFunctions.

(** The six registration entry points of the generated registrant. *)
Inductive EntryPoint :=
| AudioplayersWindowsPluginRegisterWithRegistrar
| PasteboardPluginRegisterWithRegistrar
| PermissionHandlerWindowsPluginRegisterWithRegistrar
| SystemTrayPluginRegisterWithRegistrar
| UrlLauncherWindowsRegisterWithRegistrar
| WindowsSingleInstancePluginRegisterWithRegistrar.

(** ** Calls that leave the two files *)

Inductive Event :=
| Win32Window_OnCreate_call
| GetClientArea_call
| FlutterViewController_new (width height : Z) (project : DartProject)
| FlutterViewController_delete (c : FlutterViewController)
| GetRegistrarForPlugin_call (registry : FlutterEngine) (name : string)
| RegisterWithRegistrar_call (entry : EntryPoint) (registrar : PluginRegistrar)
| GetNativeWindow_call (v : FlutterView)
| SetChildContent_call (content : HWND)
| SetNextFrameCallback_call (e : FlutterEngine)
| ForceRedraw_call (c : FlutterViewController)
| Show_call
| Win32Window_OnDestroy_call
| HandleTopLevelWindowProc_call (c : FlutterViewController)
    (hwnd : HWND) (message : UINT) (wparam : WPARAM) (lparam : LPARAM)
| ReloadSystemFonts_call (e : FlutterEngine)
| GetAsyncKeyState_call (vkey : Z)
| messenger_call (e : FlutterEngine)
| InvokeMethod_call (m : BinaryMessenger) (channel : string) (codec : MethodCodec)
    (method : string) (arguments : option EncodableValue)
    (result : option MethodResult)
| Win32Window_MessageHandler_call
    (hwnd : HWND) (message : UINT) (wparam : WPARAM) (lparam : LPARAM).

(** What the collaborators answer. *)
Record Env := {
  Win32Window_OnCreate : bool;
  GetClientArea : RECT;
  make_FlutterViewController : Z -> Z -> DartProject -> FlutterViewController;
  GetRegistrarForPlugin : FlutterEngine -> string -> PluginRegistrar;
  GetNativeWindow : FlutterView -> HWND;
  HandleTopLevelWindowProc :
    FlutterViewController -> HWND -> UINT -> WPARAM -> LPARAM -> option LRESULT;
  GetAsyncKeyState : Z -> SHORT;
  messenger : FlutterEngine -> BinaryMessenger;
  Win32Window_MessageHandler : HWND -> UINT -> WPARAM -> LPARAM -> LRESULT
}.

(** ** The window object *)

(** [project_] and [flutter_controller_] are the two members of
    [FlutterWindow]; [flutter_controller_] is a [std::unique_ptr], [None] when
    it owns nothing.  [visible] stands for the on-screen state of the window
    owned by the base class. *)
Record FlutterWindow := {
  project_ : DartProject;
  flutter_controller_ : option FlutterViewController;
  visible : bool
}.

Definition set_flutter_controller_ (p : option FlutterViewController)
  (w : FlutterWindow) : FlutterWindow :=
  {| project_ := project_ w; flutter_controller_ := p; visible := visible w |}.

Definition set_visible (b : bool) (w : FlutterWindow) : FlutterWindow :=
  {| project_ := project_ w;
     flutter_controller_ := flutter_controller_ w;
     visible := b |}.

Definition set_project_ (p : DartProject) (w : FlutterWindow) : FlutterWindow :=
  {| project_ := p;
     flutter_controller_ := flutter_controller_ w;
     visible := visible w |}.

(** ** The monad *)

(** A member function either returns a value, leaving the object in some
    state, or dereferences a null pointer; either way it has made the calls
    [t], oldest first. *)
Inductive Outcome (A : Type) :=
| Returned (a : A) (w : FlutterWindow) (t : list Event)
| NullDeref (w : FlutterWindow) (t : list Event).
Arguments Returned {A} a w t.
Arguments NullDeref {A} w t.

Definition M (A : Type) := FlutterWindow -> Outcome A.

Definition ret {A} (a : A) : M A := fun w => Returned a w [].

Definition bind {A B} (m : M A) (f : A -> M B) : M B :=
  fun w =>
    match m w with
    | Returned a w1 t1 =>
        match f a w1 with
        | Returned b w2 t2 => Returned b w2 (t1 ++ t2)
        | NullDeref w2 t2 => NullDeref w2 (t1 ++ t2)
        end
    | NullDeref w1 t1 => NullDeref w1 t1
    end.

Declare Scope cpp_scope.
Delimit Scope cpp_scope with cpp.
Notation "x <- m ;; k" := (bind m (fun x => k))
  (at level 61, m at next level, right associativity) : cpp_scope.
Notation "m ;; k" := (bind m (fun _ => k))
  (at level 61, right associativity) : cpp_scope.
Local Open Scope cpp_scope.

(** Read a member. *)
Definition gets {A} (f : FlutterWindow -> A) : M A := fun w => Returned (f w) w [].
(** Change the object. *)
Definition modify (f : FlutterWindow -> FlutterWindow) : M unit :=
  fun w => Returned tt (f w) [].
(** Call a collaborator. *)
Definition call (e : Event) : M unit := fun w => Returned tt w [e].
(** [p->...] : the pointee, or the fault when [p] is null. *)
Definition deref {A} (p : option A) : M A :=
  fun w => match p with Some a => Returned a w [] | None => NullDeref w [] end.

(** [if (p)] / [!p] on a pointer. *)
Definition non_null {A} (p : option A) : bool :=
  match p with Some _ => true | None => false end.

(** The calls a run made, and the object it left. *)
Definition calls {A} (o : Outcome A) : list Event :=
  match o with Returned _ _ t => t | NullDeref _ t => t end.
Definition final {A} (o : Outcome A) : FlutterWindow :=
  match o with Returned _ w _ => w | NullDeref w _ => w end.

(** How many calls of a trace satisfy [p]. *)
Definition count (p : Event -> bool) (t : list Event) : nat :=
  List.length (filter p t).

(** [flutter_controller_->] *)
Definition controller_arrow : M FlutterViewController :=
  p <- gets flutter_controller_;; deref p.

(** [flutter_controller_ = p] on the [std::unique_ptr]: the member takes the
    new pointer, then the object it owned before, if any, is deleted. *)
Definition assign_flutter_controller_ (p : option FlutterViewController) : M unit :=
  old <- gets flutter_controller_;;
  modify (set_flutter_controller_ p);;
  match old with
  | Some c => call (FlutterViewController_delete c)
  | None => ret tt
  end.

(** Modelled from the spec: [Win32Window::Show] belongs to the base class,
    whose file is not among the two embedded here; the spec has it
    make the window visible. *)
Definition Show : M unit :=
  call Show_call;; modify (set_visible true).

(** ** generated_plugin_registrant.cc *)

Section Program.
Variable env : Env.

(** One statement of [RegisterPlugins]:
    [XRegisterWithRegistrar(registry->GetRegistrarForPlugin("X"));] *)
Definition register_with (entry : EntryPoint) (registry : option FlutterEngine)
  (name : string) : M unit :=
  r <- deref registry;;
  call (GetRegistrarForPlugin_call r name);;
  call (RegisterWithRegistrar_call entry (GetRegistrarForPlugin env r name)).

Definition RegisterPlugins (registry : option FlutterEngine) : M unit :=
  register_with AudioplayersWindowsPluginRegisterWithRegistrar
    registry "AudioplayersWindowsPlugin";;
  register_with PasteboardPluginRegisterWithRegistrar
    registry "PasteboardPlugin";;
  register_with PermissionHandlerWindowsPluginRegisterWithRegistrar
    registry "PermissionHandlerWindowsPlugin";;
  register_with SystemTrayPluginRegisterWithRegistrar
    registry "SystemTrayPlugin";;
  register_with UrlLauncherWindowsRegisterWithRegistrar
    registry "UrlLauncherWindows";;
  register_with WindowsSingleInstancePluginRegisterWithRegistrar
    registry "WindowsSingleInstancePlugin".

(** ** flutter_window.cpp *)

(** The [for] loop of the first-frame lambda: [start_minimized] after it.
    A match sets the flag and breaks out of the loop. *)
Fixpoint scan_start_minimized (args : list string) : bool :=
  match args with
  | [] => false
  | arg :: rest =>
      if String.eqb arg "--start-minimized" then true
      else scan_start_minimized rest
  end.

(** The lambda given to [SetNextFrameCallback].  It captures by reference, so
    it reads [project_] when it runs. *)
Definition first_frame_callback : M unit :=
  project <- gets project_;;
  let start_minimized := scan_start_minimized (dart_entrypoint_arguments project) in
  if negb start_minimized then Show else ret tt.

Definition OnCreate : M bool :=
  call Win32Window_OnCreate_call;;
  if negb (Win32Window_OnCreate env) then ret false
  else
    call GetClientArea_call;;
    let frame := GetClientArea env in
    let width := right frame - left frame in
    let height := bottom frame - top frame in
    project <- gets project_;;
    call (FlutterViewController_new width height project);;
    assign_flutter_controller_
      (Some (make_FlutterViewController env width height project));;
    c <- controller_arrow;;
    if negb (non_null (engine c)) || negb (non_null (view c)) then ret false
    else
      RegisterPlugins (engine c);;
      v <- deref (view c);;
      call (GetNativeWindow_call v);;
      call (SetChildContent_call (GetNativeWindow env v));;
      e <- deref (engine c);;
      call (SetNextFrameCallback_call e);;
      call (ForceRedraw_call c);;
      ret true.

(** The first statement of [OnDestroy]:
    [if (flutter_controller_) { flutter_controller_ = nullptr; }] *)
Definition release_flutter_controller_ : M unit :=
  p <- gets flutter_controller_;;
  if non_null p then assign_flutter_controller_ None else ret tt.

Definition OnDestroy : M unit :=
  release_flutter_controller_;;
  call Win32Window_OnDestroy_call.

(** [GetAsyncKeyState(VK_MENU) & 0x8000], as a condition. *)
Definition alt_held : bool :=
  negb (Z.eqb (Z.land (GetAsyncKeyState env VK_MENU) 0x8000) 0).

(** The [switch (message)] of [MessageHandler]. *)
Definition local_handling (message : UINT) : M unit :=
  if Z.eqb message WM_FONTCHANGE then
    c <- controller_arrow;;
    e <- deref (engine c);;
    call (ReloadSystemFonts_call e)
  else if Z.eqb message WM_CLOSE then
    call (GetAsyncKeyState_call VK_MENU);;
    if alt_held then ret tt
    else
      p <- gets flutter_controller_;;
      match p with
      | Some c =>
          match engine c with
          | Some e =>
              call (messenger_call e);;
              call (InvokeMethod_call (messenger env e) "gallevr/window"
                      StandardMethodCodec "onWindowHidden" None None)
          | None => ret tt
          end
      | None => ret tt
      end
  else ret tt.

(** The part of [MessageHandler] after the engine was offered the message. *)
Definition unhandled (hwnd : HWND) (message : UINT) (wparam : WPARAM)
  (lparam : LPARAM) : M LRESULT :=
  local_handling message;;
  call (Win32Window_MessageHandler_call hwnd message wparam lparam);;
  ret (Win32Window_MessageHandler env hwnd message wparam lparam).

Definition MessageHandler (hwnd : HWND) (message : UINT) (wparam : WPARAM)
  (lparam : LPARAM) : M LRESULT :=
  p <- gets flutter_controller_;;
  match p with
  | Some c =>
      call (HandleTopLevelWindowProc_call c hwnd message wparam lparam);;
      match HandleTopLevelWindowProc env c hwnd message wparam lparam with
      | Some result => ret result
      | None => unhandled hwnd message wparam lparam
      end
  | None => unhandled hwnd message wparam lparam
  end.

End Program.

(** ** Reading traces *)

Definition is_Show (e : Event) : bool :=
  match e with Show_call => true | _ => false end.

Definition is_InvokeMethod (e : Event) : bool :=
  match e with InvokeMethod_call _ _ _ _ _ _ => true | _ => false end.

Definition EntryPoint_eqb (a b : EntryPoint) : bool :=
  match a, b with
  | AudioplayersWindowsPluginRegisterWithRegistrar,
    AudioplayersWindowsPluginRegisterWithRegistrar
  | PasteboardPluginRegisterWithRegistrar,
    PasteboardPluginRegisterWithRegistrar
  | PermissionHandlerWindowsPluginRegisterWithRegistrar,
    PermissionHandlerWindowsPluginRegisterWithRegistrar
  | SystemTrayPluginRegisterWithRegistrar,
    SystemTrayPluginRegisterWithRegistrar
  | UrlLauncherWindowsRegisterWithRegistrar,
    UrlLauncherWindowsRegisterWithRegistrar
  | WindowsSingleInstancePluginRegisterWithRegistrar,
    WindowsSingleInstancePluginRegisterWithRegistrar => true
  | _, _ => false
  end.

(** A call of the entry point [entry]. *)
Definition is_entry (entry : EntryPoint) (e : Event) : bool :=
  match e with
  | RegisterWithRegistrar_call entry' _ => EntryPoint_eqb entry entry'
  | _ => false
  end.

(** The steps of [OnCreate] that follow the null check of the handles:
    plugin registration, child content, callback wiring, redraw. *)
Definition is_setup (e : Event) : bool :=
  match e with
  | GetRegistrarForPlugin_call _ _ | RegisterWithRegistrar_call _ _
  | GetNativeWindow_call _ | SetChildContent_call _
  | SetNextFrameCallback_call _ | ForceRedraw_call _ => true
  | _ => false
  end.

(** A call made through the engine handle or its messenger. *)
Definition uses_engine (e : Event) : bool :=
  match e with
  | GetRegistrarForPlugin_call _ _ | SetNextFrameCallback_call _
  | ReloadSystemFonts_call _ | messenger_call _
  | InvokeMethod_call _ _ _ _ _ _ => true
  | _ => false
  end.

(** A call made by the [switch] of [MessageHandler] or by the fall-through
    to the base class after it. *)
Definition is_local_or_base (e : Event) : bool :=
  match e with
  | ReloadSystemFonts_call _ | GetAsyncKeyState_call _ | messenger_call _
  | InvokeMethod_call _ _ _ _ _ _
  | Win32Window_MessageHandler_call _ _ _ _ => true
  | _ => false
  end.

(** The registrant as a table, in the order of the file. *)
Definition plugin_table : list (EntryPoint * string) :=
  [ (AudioplayersWindowsPluginRegisterWithRegistrar, "AudioplayersWindowsPlugin");
    (PasteboardPluginRegisterWithRegistrar, "PasteboardPlugin");
    (PermissionHandlerWindowsPluginRegisterWithRegistrar,
      "PermissionHandlerWindowsPlugin");
    (SystemTrayPluginRegisterWithRegistrar, "SystemTrayPlugin");
    (UrlLauncherWindowsRegisterWithRegistrar, "UrlLauncherWindows");
    (WindowsSingleInstancePluginRegisterWithRegistrar,
      "WindowsSingleInstancePlugin") ].

(** The calls one row of the table stands for: look the registrar up by the
    row's name, hand it to the row's entry point. *)
Definition row_calls (env : Env) (registry : FlutterEngine)
  (row : EntryPoint * string) : list Event :=
  [ GetRegistrarForPlugin_call registry (snd row);
    RegisterWithRegistrar_call (fst row)
      (GetRegistrarForPlugin env registry (snd row)) ].

Definition registration_calls (env : Env) (registry : FlutterEngine) : list Event :=
  flat_map (row_calls env registry) plugin_table.

(** The deletion [flutter_controller_ = ...] causes in state [w]. *)
Definition delete_owned (w : FlutterWindow) : list Event :=
  match flutter_controller_ w with
  | Some c => [FlutterViewController_delete c]
  | None => []
  end.

(** The controller [OnCreate] constructs for window [w]. *)
Definition constructed (env : Env) (w : FlutterWindow) : FlutterViewController :=
  let frame := GetClientArea env in
  make_FlutterViewController env
    (right frame - left frame) (bottom frame - top frame) (project_ w).

(** The calls of [OnCreate] up to and including the construction. *)
Definition construction_calls (env : Env) (w : FlutterWindow) : list Event :=
  let frame := GetClientArea env in
  [ Win32Window_OnCreate_call; GetClientArea_call;
    FlutterViewController_new
      (right frame - left frame) (bottom frame - top frame) (project_ w) ]
  ++ delete_owned w.

(** What the engine answers when [MessageHandler] offers it a message in
    state [w]; without a controller it is not asked. *)
Definition engine_result (env : Env) (w : FlutterWindow) (hwnd : HWND)
  (message : UINT) (wparam : WPARAM) (lparam : LPARAM) : option LRESULT :=
  match flutter_controller_ w with
  | Some c => HandleTopLevelWindowProc env c hwnd message wparam lparam
  | None => None
  end.

(** The call that offer consists of. *)
Definition offer_calls (w : FlutterWindow) (hwnd : HWND)
  (message : UINT) (wparam : WPARAM) (lparam : LPARAM) : list Event :=
  match flutter_controller_ w with
  | Some c => [HandleTopLevelWindowProc_call c hwnd message wparam lparam]
  | None => []
  end.

(** The engine handle reachable from [flutter_controller_], if both the
    controller and its engine handle are there. *)
Definition engine_of (w : FlutterWindow) : option FlutterEngine :=
  match flutter_controller_ w with
  | Some c => engine c
  | None => None
  end.

Definition is_base_destroy (e : Event) : bool :=
  match e with Win32Window_OnDestroy_call => true | _ => false end.

Definition is_base_handler (e : Event) : bool :=
  match e with Win32Window_MessageHandler_call _ _ _ _ => true | _ => false end.

(** The calls of the close-request case after the key state was read. *)
Definition notification_calls (env : Env) (w : FlutterWindow) : list Event :=
  if alt_held env then []
  else
    match engine_of w with
    | Some e =>
        [ messenger_call e;
          InvokeMethod_call (messenger env e) "gallevr/window"
            StandardMethodCodec "onWindowHidden" None None ]
    | None => []
    end.

(** ** Concrete collaborators and windows *)

(** An environment fixed by the four answers the claims depend on. *)
Definition sample_env (base_ok : bool) (c : FlutterViewController)
  (handled : option LRESULT) (key_state : SHORT) : Env :=
  {| Win32Window_OnCreate := base_ok;
     GetClientArea := {| left := 0; top := 0; right := 1280; bottom := 720 |};
     make_FlutterViewController := fun _ _ _ => c;
     GetRegistrarForPlugin :=
       fun _ name => RegistrarHandle (N.of_nat (String.length name));
     GetNativeWindow := fun _ => 4242;
     HandleTopLevelWindowProc := fun _ _ _ _ _ => handled;
     GetAsyncKeyState := fun _ => key_state;
     messenger := fun _ => MessengerHandle 1;
     Win32Window_MessageHandler := fun _ message _ _ => message + 1000 |}.

Definition full_controller : FlutterViewController :=
  {| engine := Some (EngineHandle 7); view := Some (ViewHandle 8) |}.
Definition engineless_controller : FlutterViewController :=
  {| engine := None; view := Some (ViewHandle 8) |}.
Definition viewless_controller : FlutterViewController :=
  {| engine := Some (EngineHandle 7); view := None |}.

(** A window before [OnCreate], started with the given arguments. *)
Definition fresh_window (args : list string) : FlutterWindow :=
  {| project_ := {| dart_entrypoint_arguments := args |};
     flutter_controller_ := None;
     visible := false |}.

(** A window holding controller [c]. *)
Definition window_with (c : FlutterViewController) : FlutterWindow :=
  set_flutter_controller_ (Some c) (fresh_window []).

(** [GetAsyncKeyState] answers: key down (most significant bit set), key up. *)
Definition key_down : SHORT := -32768.
Definition key_up : SHORT := 0.

(** ** The constructor, and further readers of traces *)

(** [FlutterWindow::FlutterWindow(project)] copies the project into [project_];
    [flutter_controller_], a default-initialised [std::unique_ptr], owns
    nothing.  No window exists yet, so none is on screen. *)
Definition FlutterWindow_new (project : DartProject) : FlutterWindow :=
  {| project_ := project; flutter_controller_ := None; visible := false |}.

(** Did the run stop at a null pointer? *)
Definition faulted {A} (o : Outcome A) : bool :=
  match o with NullDeref _ _ => true | Returned _ _ _ => false end.

Definition is_new (e : Event) : bool :=
  match e with FlutterViewController_new _ _ _ => true | _ => false end.

Definition is_delete (e : Event) : bool :=
  match e with FlutterViewController_delete _ => true | _ => false end.

Definition is_offer (e : Event) : bool :=
  match e with HandleTopLevelWindowProc_call _ _ _ _ _ => true | _ => false end.

Definition is_reload (e : Event) : bool :=
  match e with ReloadSystemFonts_call _ => true | _ => false end.

Definition is_key_read (e : Event) : bool :=
  match e with GetAsyncKeyState_call _ => true | _ => false end.

(** The calls the [switch] of [MessageHandler] makes for [message] in state
    [w] when it does not fault. *)
Definition local_calls (env : Env) (message : UINT) (w : FlutterWindow)
  : list Event :=
  if Z.eqb message WM_FONTCHANGE then
    match engine_of w with
    | Some e => [ReloadSystemFonts_call e]
    | None => []
    end
  else if Z.eqb message WM_CLOSE then
    GetAsyncKeyState_call VK_MENU :: notification_calls env w
  else [].

(** The last four calls of a successful [OnCreate]. *)
Definition attachment_calls (env : Env) (c : FlutterViewController)
  (e : FlutterEngine) (v : FlutterView) : list Event :=
  [ GetNativeWindow_call v; SetChildContent_call (GetNativeWindow env v);
    SetNextFrameCallback_call e; ForceRedraw_call c ].

(** The Created state: a controller is held and its engine and view handles
    are non-null, as [OnCreate] has checked before it returns [true]. *)
Definition created (w : FlutterWindow) : bool :=
  match flutter_controller_ w with
  | Some c => non_null (engine c) && non_null (view c)
  | None => false
  end.

(** * Properties *)

(** ** The first-frame callback *)

Lemma scan_start_minimized_In (args : list string) :
  scan_start_minimized args = true <-> In "--start-minimized" args.
Proof.
  induction args as [|arg rest IH]; cbn [scan_start_minimized In].
  - split; [discriminate | contradiction].
  - destruct (String.eqb_spec arg "--start-minimized") as [Heq|Hne].
    + split; auto.
    + rewrite IH. split; [now right | intros [Heq|Hin]; [contradiction | exact Hin]].
Qed.

Lemma scan_start_minimized_not_In (args : list string) :
  scan_start_minimized args = false <-> ~ In "--start-minimized" args.
Proof.
  rewrite <- scan_start_minimized_In.
  destruct (scan_start_minimized args); split; congruence.
Qed.

(** The comparison is on whole strings and on exact characters. *)
Lemma scan_start_minimized_near_misses :
  scan_start_minimized
    ["--Start-Minimized"; "--start-minimized "; "--start-minimize";
     "-start-minimized"; "--start-minimized=1"] = false.
Proof. reflexivity. Qed.

(** C1.  When the first-frame callback runs, it returns; if one of the startup
    arguments is the string [--start-minimized], it calls nothing (so [Show]
    is not called) and leaves the window as it was, hence hidden if it was
    hidden; if no argument is that string, its only call is one call of
    [Show], and the window is visible afterwards. *)
Theorem first_frame_callback_shows_unless_flag (w : FlutterWindow) :
  let args := dart_entrypoint_arguments (project_ w) in
  let run := first_frame_callback w in
  (exists w', run = Returned tt w' (calls run)) /\
  (In "--start-minimized" args ->
     count is_Show (calls run) = 0%nat /\ calls run = [] /\ final run = w) /\
  (~ In "--start-minimized" args ->
     count is_Show (calls run) = 1%nat /\ calls run = [Show_call] /\
     visible (final run) = true).
Proof.
  intros args run. subst run. unfold first_frame_callback, bind, gets.
  fold args.
  destruct (scan_start_minimized args) eqn:Hscan; cbn.
  - split; [now exists w|]. split; [now auto|].
    intros Hnot. apply scan_start_minimized_In in Hscan. contradiction.
  - split; [now eexists|]. split; [|now auto].
    intros Hin. apply scan_start_minimized_In in Hin. congruence.
Qed.

Lemma first_frame_callback_witness :
  (let run := first_frame_callback (fresh_window ["--verbose"; "--start-minimized"]) in
   calls run = [] /\ visible (final run) = false) /\
  (let run := first_frame_callback (fresh_window ["--Start-Minimized"; "--verbose"]) in
   calls run = [Show_call] /\ visible (final run) = true).
Proof.
  split.
  - destruct (first_frame_callback_shows_unless_flag
                (fresh_window ["--verbose"; "--start-minimized"]))
      as (_ & Hflag & _).
    destruct Hflag as (_ & Hcalls & Hfinal); [cbn; auto|].
    cbv zeta. rewrite Hcalls, Hfinal. split; reflexivity.
  - destruct (first_frame_callback_shows_unless_flag
                (fresh_window ["--Start-Minimized"; "--verbose"]))
      as (_ & _ & Hnoflag).
    destruct Hnoflag as (_ & Hcalls & Hvis).
    + cbn. intros [H|[H|[]]]; discriminate.
    + cbv zeta. split; assumption.
Defined.

(** ** Plugin registration *)

Lemma RegisterPlugins_calls (env : Env) (e : FlutterEngine) (w : FlutterWindow) :
  RegisterPlugins env (Some e) w = Returned tt w (registration_calls env e).
Proof. reflexivity. Qed.

(** ** Window creation *)

Lemma assign_flutter_controller__run (p : option FlutterViewController)
  (w : FlutterWindow) :
  assign_flutter_controller_ p w =
  Returned tt (set_flutter_controller_ p w) (delete_owned w).
Proof.
  unfold assign_flutter_controller_, delete_owned, bind, gets, modify.
  destruct (flutter_controller_ w); reflexivity.
Qed.

Lemma OnCreate_base_failed (env : Env) (w : FlutterWindow) :
  Win32Window_OnCreate env = false ->
  OnCreate env w = Returned false w [Win32Window_OnCreate_call].
Proof.
  intros Hbase. unfold OnCreate, bind, call. rewrite Hbase. reflexivity.
Qed.

Lemma OnCreate_null_handle (env : Env) (w : FlutterWindow) :
  Win32Window_OnCreate env = true ->
  engine (constructed env w) = None \/ view (constructed env w) = None ->
  OnCreate env w =
  Returned false (set_flutter_controller_ (Some (constructed env w)) w)
    (construction_calls env w).
Proof.
  intros Hbase Hnull.
  unfold OnCreate, bind at 1. cbn [call]. rewrite Hbase. cbn [negb].
  unfold bind at 1. cbn [call]. unfold bind at 1. cbn [gets].
  unfold bind at 1. cbn [call]. unfold bind at 1.
  rewrite assign_flutter_controller__run.
  unfold bind at 1. unfold controller_arrow, bind at 1. cbn [gets].
  cbn [set_flutter_controller_ flutter_controller_ deref].
  fold (constructed env w).
  assert (Hcond : negb (non_null (engine (constructed env w)))
                  || negb (non_null (view (constructed env w))) = true).
  { destruct Hnull as [H|H]; rewrite H; cbn; auto using orb_true_r. }
  rewrite Hcond. cbn [ret app]. unfold construction_calls.
  now rewrite app_nil_r.
Qed.

Lemma OnCreate_handles_present (env : Env) (w : FlutterWindow)
  (e : FlutterEngine) (v : FlutterView) :
  Win32Window_OnCreate env = true ->
  engine (constructed env w) = Some e ->
  view (constructed env w) = Some v ->
  OnCreate env w =
  Returned true (set_flutter_controller_ (Some (constructed env w)) w)
    (construction_calls env w ++ registration_calls env e ++
     [ GetNativeWindow_call v; SetChildContent_call (GetNativeWindow env v);
       SetNextFrameCallback_call e; ForceRedraw_call (constructed env w) ]).
Proof.
  intros Hbase He Hv.
  unfold OnCreate, bind at 1. cbn [call]. rewrite Hbase. cbn [negb].
  unfold bind at 1. cbn [call]. unfold bind at 1. cbn [gets].
  unfold bind at 1. cbn [call]. unfold bind at 1.
  rewrite assign_flutter_controller__run.
  unfold bind at 1. unfold controller_arrow, bind at 1. cbn [gets].
  cbn [set_flutter_controller_ flutter_controller_ deref].
  fold (constructed env w). rewrite He, Hv. cbn [non_null negb orb].
  unfold bind at 1. rewrite RegisterPlugins_calls.
  cbn. unfold construction_calls. cbn. rewrite <- ?app_assoc. reflexivity.
Qed.

(** C2.  [OnCreate] always returns, and it returns [false] exactly when the
    base creation step fails or the engine handle or the view handle of the
    controller it constructs is null; in every other case it returns [true]. *)
Theorem OnCreate_false_iff_base_or_handle_fails (env : Env) (w : FlutterWindow) :
  exists b w' t,
    OnCreate env w = Returned b w' t /\
    (b = false <->
       Win32Window_OnCreate env = false \/
       engine (constructed env w) = None \/ view (constructed env w) = None) /\
    (b = true <->
       Win32Window_OnCreate env = true /\
       engine (constructed env w) <> None /\ view (constructed env w) <> None).
Proof.
  destruct (Win32Window_OnCreate env) eqn:Hbase.
  - destruct (engine (constructed env w)) as [e|] eqn:He.
    + destruct (view (constructed env w)) as [v|] eqn:Hv.
      * do 3 eexists. split; [exact (OnCreate_handles_present env w e v Hbase He Hv)|].
        split; split; try congruence.
        -- intros [H|[H|H]]; discriminate.
        -- intros _. repeat split; discriminate.
      * do 3 eexists. split.
        { apply OnCreate_null_handle; [exact Hbase | right; exact Hv]. }
        split; split; auto; try discriminate. intros (_ & _ & H). congruence.
    + do 3 eexists. split.
      { apply OnCreate_null_handle; [exact Hbase | left; exact He]. }
      split; split; auto; try discriminate. intros (_ & H & _). congruence.
  - do 3 eexists. split; [exact (OnCreate_base_failed env w Hbase)|].
    split; split; auto; try discriminate. intros (H & _). discriminate.
Qed.

Lemma OnCreate_false_iff_witness :
  (exists w' t, OnCreate (sample_env false full_controller None key_up)
                  (fresh_window []) = Returned false w' t) /\
  (exists w' t, OnCreate (sample_env true viewless_controller None key_up)
                  (fresh_window []) = Returned false w' t) /\
  (exists w' t, OnCreate (sample_env true full_controller None key_up)
                  (fresh_window []) = Returned true w' t).
Proof.
  split; [|split].
  - destruct (OnCreate_false_iff_base_or_handle_fails
                (sample_env false full_controller None key_up) (fresh_window []))
      as (b & w' & t & Hrun & Hfalse & _).
    exists w', t. rewrite Hrun. f_equal. apply Hfalse. left. reflexivity.
  - destruct (OnCreate_false_iff_base_or_handle_fails
                (sample_env true viewless_controller None key_up) (fresh_window []))
      as (b & w' & t & Hrun & Hfalse & _).
    exists w', t. rewrite Hrun. f_equal. apply Hfalse. right. right. reflexivity.
  - destruct (OnCreate_false_iff_base_or_handle_fails
                (sample_env true full_controller None key_up) (fresh_window []))
      as (b & w' & t & Hrun & _ & Htrue).
    exists w', t. rewrite Hrun. f_equal. apply Htrue.
    repeat split; discriminate.
Defined.

(** C4, as the code has it.  When the base step succeeded and the engine
    handle or the view handle of the constructed controller is null,
    [OnCreate] returns [false]; its calls are those up to the construction and
    none of them is a setup step (plugin registration, child content, callback
    wiring, redraw); and [flutter_controller_] still holds the constructed
    controller. *)
Theorem OnCreate_null_handle_no_setup_keeps_controller
  (env : Env) (w : FlutterWindow) :
  Win32Window_OnCreate env = true ->
  engine (constructed env w) = None \/ view (constructed env w) = None ->
  exists w',
    OnCreate env w = Returned false w' (construction_calls env w) /\
    count is_setup (construction_calls env w) = 0%nat /\
    flutter_controller_ w' = Some (constructed env w) /\
    project_ w' = project_ w /\ visible w' = visible w.
Proof.
  intros Hbase Hnull. eexists. split.
  - apply OnCreate_null_handle; assumption.
  - split; [|cbn; auto].
    unfold construction_calls, delete_owned, count.
    destruct (flutter_controller_ w); reflexivity.
Qed.

Lemma OnCreate_null_handle_witness :
  exists w',
    OnCreate (sample_env true viewless_controller None key_up) (fresh_window [])
    = Returned false w'
        [ Win32Window_OnCreate_call; GetClientArea_call;
          FlutterViewController_new 1280 720 {| dart_entrypoint_arguments := [] |} ] /\
    flutter_controller_ w' = Some viewless_controller.
Proof.
  destruct (OnCreate_null_handle_no_setup_keeps_controller
              (sample_env true viewless_controller None key_up) (fresh_window []))
    as (w' & Hrun & _ & Hctl & _).
  - reflexivity.
  - right. reflexivity.
  - exists w'. split; [exact Hrun | exact Hctl].
Defined.

(** C4, as the claim has it, fails: with a null engine handle [OnCreate]
    returns [false] and [flutter_controller_] is not empty. *)
Lemma OnCreate_null_engine_controller_not_discarded :
  OnCreate (sample_env true engineless_controller None key_up) (fresh_window [])
  = Returned false (window_with engineless_controller)
      [ Win32Window_OnCreate_call; GetClientArea_call;
        FlutterViewController_new 1280 720 {| dart_entrypoint_arguments := [] |} ] /\
  flutter_controller_ (window_with engineless_controller)
  = Some engineless_controller /\
  flutter_controller_ (window_with engineless_controller) <> None.
Proof. repeat split. discriminate. Qed.

Lemma count_app (p : Event -> bool) (t1 t2 : list Event) :
  count p (t1 ++ t2) = (count p t1 + count p t2)%nat.
Proof. unfold count. now rewrite filter_app, length_app. Qed.

Lemma count_construction_calls (p : Event -> bool) (env : Env) (w : FlutterWindow) :
  (forall width height project, p (FlutterViewController_new width height project) = false) ->
  (forall c, p (FlutterViewController_delete c) = false) ->
  p Win32Window_OnCreate_call = false -> p GetClientArea_call = false ->
  count p (construction_calls env w) = 0%nat.
Proof.
  intros Hnew Hdel Hbase Harea.
  unfold construction_calls, delete_owned, count. cbn [app filter].
  rewrite Hbase, Harea, Hnew.
  destruct (flutter_controller_ w); cbn [app filter]; [rewrite Hdel|]; reflexivity.
Qed.

Lemma OnCreate_true_inv (env : Env) (w w' : FlutterWindow) (t : list Event) :
  OnCreate env w = Returned true w' t ->
  exists e v,
    engine (constructed env w) = Some e /\ view (constructed env w) = Some v /\
    t = construction_calls env w ++ registration_calls env e ++
        [ GetNativeWindow_call v; SetChildContent_call (GetNativeWindow env v);
          SetNextFrameCallback_call e; ForceRedraw_call (constructed env w) ].
Proof.
  intros Hrun.
  destruct (Win32Window_OnCreate env) eqn:Hbase.
  - destruct (engine (constructed env w)) as [e|] eqn:He.
    + destruct (view (constructed env w)) as [v|] eqn:Hv.
      * rewrite (OnCreate_handles_present env w e v Hbase He Hv) in Hrun.
        exists e, v. inversion Hrun. auto.
      * rewrite OnCreate_null_handle in Hrun; auto. discriminate.
    + rewrite OnCreate_null_handle in Hrun; auto. discriminate.
  - rewrite (OnCreate_base_failed env w Hbase) in Hrun. discriminate.
Qed.

(** C8.  [RegisterPlugins] returns, and its calls are, for the six rows of the
    registrant in the order of the file, the lookup of the registrar under the
    row's name followed by the row's entry point applied to that registrar;
    each entry point is called exactly once; the calls do not depend on the
    startup arguments; and a successful [OnCreate] calls each entry point
    exactly once. *)
Theorem RegisterPlugins_each_entry_point_once_in_order
  (env : Env) (registry : FlutterEngine) (w : FlutterWindow) (entry : EntryPoint) :
  let run := RegisterPlugins env (Some registry) w in
  let reg := GetRegistrarForPlugin env registry in
  run = Returned tt w (registration_calls env registry) /\
  calls run =
    [ GetRegistrarForPlugin_call registry "AudioplayersWindowsPlugin";
      RegisterWithRegistrar_call AudioplayersWindowsPluginRegisterWithRegistrar
        (reg "AudioplayersWindowsPlugin");
      GetRegistrarForPlugin_call registry "PasteboardPlugin";
      RegisterWithRegistrar_call PasteboardPluginRegisterWithRegistrar
        (reg "PasteboardPlugin");
      GetRegistrarForPlugin_call registry "PermissionHandlerWindowsPlugin";
      RegisterWithRegistrar_call PermissionHandlerWindowsPluginRegisterWithRegistrar
        (reg "PermissionHandlerWindowsPlugin");
      GetRegistrarForPlugin_call registry "SystemTrayPlugin";
      RegisterWithRegistrar_call SystemTrayPluginRegisterWithRegistrar
        (reg "SystemTrayPlugin");
      GetRegistrarForPlugin_call registry "UrlLauncherWindows";
      RegisterWithRegistrar_call UrlLauncherWindowsRegisterWithRegistrar
        (reg "UrlLauncherWindows");
      GetRegistrarForPlugin_call registry "WindowsSingleInstancePlugin";
      RegisterWithRegistrar_call WindowsSingleInstancePluginRegisterWithRegistrar
        (reg "WindowsSingleInstancePlugin") ] /\
  count (is_entry entry) (calls run) = 1%nat /\
  (forall project,
     calls (RegisterPlugins env (Some registry) (set_project_ project w))
     = calls run) /\
  (forall w0 w' t,
     OnCreate env w0 = Returned true w' t -> count (is_entry entry) t = 1%nat).
Proof.
  intros run reg. subst run reg.
  repeat split; try reflexivity.
  - destruct entry; reflexivity.
  - intros w0 w' t Hrun.
    destruct (OnCreate_true_inv env w0 w' t Hrun) as (e & v & _ & _ & ->).
    rewrite !count_app, count_construction_calls by reflexivity.
    destruct entry; reflexivity.
Qed.

Lemma RegisterPlugins_witness :
  count (is_entry SystemTrayPluginRegisterWithRegistrar)
    (calls (OnCreate (sample_env true full_controller None key_up)
              (fresh_window ["--start-minimized"]))) = 1%nat.
Proof.
  destruct (RegisterPlugins_each_entry_point_once_in_order
              (sample_env true full_controller None key_up) (EngineHandle 7)
              (fresh_window []) SystemTrayPluginRegisterWithRegistrar)
    as (_ & _ & _ & _ & Hcreate).
  apply (Hcreate (fresh_window ["--start-minimized"])
           (final (OnCreate (sample_env true full_controller None key_up)
                     (fresh_window ["--start-minimized"])))).
  reflexivity.
Defined.

(** ** Window destruction *)

Lemma release_flutter_controller__run (w : FlutterWindow) :
  exists w1,
    release_flutter_controller_ w = Returned tt w1 (delete_owned w) /\
    flutter_controller_ w1 = None /\
    project_ w1 = project_ w /\ visible w1 = visible w /\
    (flutter_controller_ w = None -> w1 = w).
Proof.
  unfold release_flutter_controller_, bind, gets.
  destruct (flutter_controller_ w) as [c|] eqn:Hc; cbn [non_null].
  - rewrite assign_flutter_controller__run. unfold delete_owned. rewrite Hc.
    eexists. split; [reflexivity|]. cbn. repeat split. discriminate.
  - unfold delete_owned. rewrite Hc. exists w. cbn. auto.
Qed.

Lemma OnDestroy_run (w : FlutterWindow) :
  exists w',
    OnDestroy w = Returned tt w' (delete_owned w ++ [Win32Window_OnDestroy_call]) /\
    release_flutter_controller_ w = Returned tt w' (delete_owned w) /\
    flutter_controller_ w' = None /\
    (flutter_controller_ w = None -> w' = w).
Proof.
  destruct (release_flutter_controller__run w) as (w1 & Hrel & Hnone & _ & _ & Hsame).
  exists w1. unfold OnDestroy, bind. rewrite Hrel. cbn. auto.
Qed.

(** C6.  From every state, [OnDestroy] first runs the release of
    [flutter_controller_], which deletes the controller if one is held and
    leaves the reference empty, and only then, from that state, calls the base
    destruction routine: the base call is the last call, it is made once, and
    the deletion, if any, precedes it. *)
Theorem OnDestroy_releases_controller_before_base (w : FlutterWindow) :
  exists w1 released,
    release_flutter_controller_ w = Returned tt w1 released /\
    flutter_controller_ w1 = None /\
    released = delete_owned w /\
    count is_base_destroy released = 0%nat /\
    call Win32Window_OnDestroy_call w1
      = Returned tt w1 [Win32Window_OnDestroy_call] /\
    OnDestroy w = Returned tt w1 (released ++ [Win32Window_OnDestroy_call]).
Proof.
  destruct (OnDestroy_run w) as (w' & Hrun & Hrel & Hnone & _).
  exists w', (delete_owned w). repeat split; auto.
  unfold delete_owned. destruct (flutter_controller_ w); reflexivity.
Qed.

Lemma OnDestroy_releases_witness :
  OnDestroy (window_with full_controller)
  = Returned tt (fresh_window [])
      [FlutterViewController_delete full_controller; Win32Window_OnDestroy_call].
Proof.
  destruct (OnDestroy_releases_controller_before_base (window_with full_controller))
    as (w1 & released & Hrel & _ & Hreleased & _ & _ & Hrun).
  rewrite Hrun. cbv in Hrel. inversion Hrel. reflexivity.
Defined.

(** C10.  [OnDestroy] returns from every state, and afterwards
    [flutter_controller_] is empty; when it is empty already, [OnDestroy] only
    calls the base routine and changes nothing; so a second [OnDestroy] only
    calls the base routine. *)
Theorem OnDestroy_leaves_empty_and_is_idempotent (w : FlutterWindow) :
  exists w' t,
    OnDestroy w = Returned tt w' t /\
    flutter_controller_ w' = None /\
    (flutter_controller_ w = None ->
       OnDestroy w = Returned tt w [Win32Window_OnDestroy_call]) /\
    OnDestroy w' = Returned tt w' [Win32Window_OnDestroy_call].
Proof.
  destruct (OnDestroy_run w) as (w' & Hrun & _ & Hnone & Hsame).
  exists w', (delete_owned w ++ [Win32Window_OnDestroy_call]).
  split; [exact Hrun|]. split; [exact Hnone|]. split.
  - intros Hempty. rewrite Hrun, (Hsame Hempty).
    unfold delete_owned. now rewrite Hempty.
  - destruct (OnDestroy_run w') as (w'' & Hrun' & _ & _ & Hsame').
    rewrite Hrun', (Hsame' Hnone). unfold delete_owned. now rewrite Hnone.
Qed.

Lemma OnDestroy_idempotent_witness :
  OnDestroy (fresh_window ["--start-minimized"])
  = Returned tt (fresh_window ["--start-minimized"]) [Win32Window_OnDestroy_call].
Proof.
  destruct (OnDestroy_leaves_empty_and_is_idempotent
              (fresh_window ["--start-minimized"]))
    as (w' & t & _ & _ & Hempty & _).
  apply Hempty. reflexivity.
Defined.

(** ** Message routing *)

(** [alt_held] is bit 15 of the key state, the sign of a [SHORT]: the bit
    [GetAsyncKeyState] sets while the key is down. *)
Lemma alt_held_is_bit_15 (env : Env) :
  alt_held env = Z.testbit (GetAsyncKeyState env VK_MENU) 15.
Proof.
  unfold alt_held. generalize (GetAsyncKeyState env VK_MENU) as k. intros k.
  change 0x8000 with (2 ^ 15).
  destruct (Z.testbit k 15) eqn:Hbit.
  - destruct (Z.eqb_spec (Z.land k (2 ^ 15)) 0) as [Hzero|]; [|reflexivity].
    assert (H : Z.testbit (Z.land k (2 ^ 15)) 15 = true).
    { rewrite Z.land_spec, Hbit, Z.pow2_bits_true by lia. reflexivity. }
    rewrite Hzero in H. discriminate.
  - replace (Z.land k (2 ^ 15)) with 0; [reflexivity|].
    symmetry. apply Z.bits_inj'. intros n Hn.
    rewrite Z.land_spec, Z.bits_0, Z.pow2_bits_eqb by lia.
    destruct (Z.eqb_spec 15 n) as [<-|]; [now rewrite Hbit | apply andb_false_r].
Qed.

Lemma alt_held_is_sign_of_short (env : Env) :
  -32768 <= GetAsyncKeyState env VK_MENU < 32768 ->
  alt_held env = (GetAsyncKeyState env VK_MENU <? 0)%Z.
Proof.
  rewrite alt_held_is_bit_15.
  generalize (GetAsyncKeyState env VK_MENU) as k. intros k Hrange.
  destruct (Z.eq_dec k (-32768)) as [->|Hmin]; [reflexivity|].
  destruct (Z.eq_dec k 0) as [->|Hzero]; [reflexivity|].
  assert (Hlog : Z.log2 (Z.abs k) < 15).
  { apply Z.log2_lt_pow2; [lia|]. change (2 ^ 15) with 32768. lia. }
  destruct (Z.ltb_spec k 0) as [Hneg|Hpos].
  - now apply Z.bits_iff_neg.
  - destruct (Z.testbit k 15) eqn:Hbit; [|reflexivity].
    apply Z.bits_iff_neg in Hbit; [lia | exact Hlog].
Qed.

Lemma local_handling_fontchange (env : Env) (w : FlutterWindow) :
  local_handling env WM_FONTCHANGE w =
  match engine_of w with
  | Some e => Returned tt w [ReloadSystemFonts_call e]
  | None => NullDeref w []
  end.
Proof.
  unfold local_handling, engine_of, controller_arrow, bind, gets.
  cbn [Z.eqb WM_FONTCHANGE Pos.eqb].
  destruct (flutter_controller_ w) as [c|]; cbn [deref]; [|reflexivity].
  destruct (engine c); reflexivity.
Qed.

Lemma local_handling_close (env : Env) (w : FlutterWindow) :
  local_handling env WM_CLOSE w =
  Returned tt w (GetAsyncKeyState_call VK_MENU :: notification_calls env w).
Proof.
  unfold local_handling, notification_calls, engine_of, bind, gets, call.
  replace (Z.eqb WM_CLOSE WM_FONTCHANGE) with false by reflexivity.
  replace (Z.eqb WM_CLOSE WM_CLOSE) with true by reflexivity.
  destruct (alt_held env); [reflexivity|].
  destruct (flutter_controller_ w) as [c|]; [|reflexivity].
  destruct (engine c); reflexivity.
Qed.

Lemma local_handling_other (env : Env) (message : UINT) (w : FlutterWindow) :
  message <> WM_FONTCHANGE -> message <> WM_CLOSE ->
  local_handling env message w = Returned tt w [].
Proof.
  intros Hfont Hclose. unfold local_handling.
  apply Z.eqb_neq in Hfont. apply Z.eqb_neq in Hclose.
  now rewrite Hfont, Hclose.
Qed.

Lemma MessageHandler_not_handled (env : Env) (w : FlutterWindow) (hwnd : HWND)
  (message : UINT) (wparam : WPARAM) (lparam : LPARAM) :
  engine_result env w hwnd message wparam lparam = None ->
  MessageHandler env hwnd message wparam lparam w =
  match local_handling env message w with
  | Returned _ w1 t1 =>
      Returned (Win32Window_MessageHandler env hwnd message wparam lparam) w1
        (offer_calls w hwnd message wparam lparam ++ t1 ++
         [Win32Window_MessageHandler_call hwnd message wparam lparam])
  | NullDeref w1 t1 =>
      NullDeref w1 (offer_calls w hwnd message wparam lparam ++ t1)
  end.
Proof.
  unfold engine_result, offer_calls, MessageHandler, bind at 1. cbn [gets].
  destruct (flutter_controller_ w) as [c|].
  - intros Hnone. unfold bind at 1. cbn [call]. rewrite Hnone.
    unfold unhandled, bind.
    destruct (local_handling env message w); cbn; rewrite ?app_nil_r; reflexivity.
  - intros _. unfold unhandled, bind.
    destruct (local_handling env message w); cbn; rewrite ?app_nil_r; reflexivity.
Qed.

(** C7.  When a controller is held and the engine's top-level handler reports
    the message handled with [result], [MessageHandler] returns [result]; its
    only call is the offer to the engine: no font reload, no key-state read,
    no channel invocation and no call of the base handler. *)
Theorem MessageHandler_handled_returns_engine_result
  (env : Env) (w : FlutterWindow) (c : FlutterViewController) (hwnd : HWND)
  (message : UINT) (wparam : WPARAM) (lparam : LPARAM) (result : LRESULT) :
  flutter_controller_ w = Some c ->
  HandleTopLevelWindowProc env c hwnd message wparam lparam = Some result ->
  let run := MessageHandler env hwnd message wparam lparam w in
  run = Returned result w
          [HandleTopLevelWindowProc_call c hwnd message wparam lparam] /\
  count is_local_or_base (calls run) = 0%nat.
Proof.
  intros Hc Hhandled run. subst run.
  assert (Hrun : MessageHandler env hwnd message wparam lparam w
                 = Returned result w
                     [HandleTopLevelWindowProc_call c hwnd message wparam lparam]).
  { unfold MessageHandler, bind at 1. cbn [gets]. rewrite Hc.
    unfold bind. cbn [call]. rewrite Hhandled. reflexivity. }
  rewrite Hrun. split; reflexivity.
Qed.

Lemma MessageHandler_handled_witness :
  MessageHandler (sample_env true full_controller (Some 55) key_up)
    1 WM_CLOSE 0 0 (window_with full_controller)
  = Returned 55 (window_with full_controller)
      [HandleTopLevelWindowProc_call full_controller 1 WM_CLOSE 0 0].
Proof.
  apply (MessageHandler_handled_returns_engine_result
           (sample_env true full_controller (Some 55) key_up)
           (window_with full_controller) full_controller 1 WM_CLOSE 0 0 55);
    reflexivity.
Defined.

(** C3, at the input where the code departs from it.  Without a controller a
    font-change message makes [MessageHandler] dereference the null
    [flutter_controller_]: it faults before any call and never reaches the
    base handler. *)
Theorem MessageHandler_fontchange_without_controller_faults
  (env : Env) (w : FlutterWindow) (hwnd : HWND) (wparam : WPARAM) (lparam : LPARAM) :
  flutter_controller_ w = None ->
  MessageHandler env hwnd WM_FONTCHANGE wparam lparam w = NullDeref w [].
Proof.
  intros Hnone.
  rewrite MessageHandler_not_handled by (unfold engine_result; now rewrite Hnone).
  rewrite local_handling_fontchange. unfold engine_of, offer_calls.
  now rewrite Hnone.
Qed.

Lemma MessageHandler_fontchange_witness :
  MessageHandler (sample_env true full_controller None key_up)
    1 WM_FONTCHANGE 0 0 (fresh_window [])
  = NullDeref (fresh_window []) [].
Proof.
  apply (MessageHandler_fontchange_without_controller_faults
           (sample_env true full_controller None key_up) (fresh_window []) 1 0 0).
  reflexivity.
Defined.

(** The rest of C3 holds: without a controller every message other than a
    font change falls through to the base handler, whose result is returned,
    and no call goes through the engine. *)
Lemma MessageHandler_without_controller_falls_through
  (env : Env) (w : FlutterWindow) (hwnd : HWND) (message : UINT)
  (wparam : WPARAM) (lparam : LPARAM) :
  flutter_controller_ w = None -> message <> WM_FONTCHANGE ->
  exists t,
    MessageHandler env hwnd message wparam lparam w =
    Returned (Win32Window_MessageHandler env hwnd message wparam lparam) w
      (t ++ [Win32Window_MessageHandler_call hwnd message wparam lparam]) /\
    count uses_engine t = 0%nat /\ count is_base_handler t = 0%nat.
Proof.
  intros Hnone Hfont.
  rewrite MessageHandler_not_handled by (unfold engine_result; now rewrite Hnone).
  unfold offer_calls. rewrite Hnone. cbn [app].
  destruct (Z.eq_dec message WM_CLOSE) as [->|Hclose].
  - rewrite local_handling_close. eexists. split; [reflexivity|].
    unfold notification_calls, engine_of. rewrite Hnone.
    destruct (alt_held env); split; reflexivity.
  - rewrite local_handling_other by assumption. exists []. repeat split.
Qed.

Lemma MessageHandler_close_not_handled (env : Env) (w : FlutterWindow)
  (hwnd : HWND) (wparam : WPARAM) (lparam : LPARAM) :
  engine_result env w hwnd WM_CLOSE wparam lparam = None ->
  MessageHandler env hwnd WM_CLOSE wparam lparam w =
  Returned (Win32Window_MessageHandler env hwnd WM_CLOSE wparam lparam) w
    ((offer_calls w hwnd WM_CLOSE wparam lparam ++
      GetAsyncKeyState_call VK_MENU :: notification_calls env w) ++
     [Win32Window_MessageHandler_call hwnd WM_CLOSE wparam lparam]).
Proof.
  intros Hnone. rewrite (MessageHandler_not_handled _ _ _ _ _ _ Hnone).
  rewrite local_handling_close. now rewrite <- app_assoc.
Qed.

Lemma count_offer_calls (p : Event -> bool) (w : FlutterWindow) (hwnd : HWND)
  (message : UINT) (wparam : WPARAM) (lparam : LPARAM) :
  (forall c, p (HandleTopLevelWindowProc_call c hwnd message wparam lparam) = false) ->
  count p (offer_calls w hwnd message wparam lparam) = 0%nat.
Proof.
  intros Hp. unfold offer_calls, count.
  destruct (flutter_controller_ w); cbn; [rewrite Hp|]; reflexivity.
Qed.

Lemma filter_offer_calls (p : Event -> bool) (w : FlutterWindow) (hwnd : HWND)
  (message : UINT) (wparam : WPARAM) (lparam : LPARAM) :
  (forall c, p (HandleTopLevelWindowProc_call c hwnd message wparam lparam) = false) ->
  filter p (offer_calls w hwnd message wparam lparam) = [].
Proof.
  intros Hp. unfold offer_calls.
  destruct (flutter_controller_ w); cbn; [rewrite Hp|]; reflexivity.
Qed.

(** For a close request the engine did not handle, in any state: the base
    handler is called last and its result returned; what is invoked before
    depends on the Alt key and on the engine handle. *)
Lemma close_request_invocations
  (env : Env) (w : FlutterWindow) (hwnd : HWND) (wparam : WPARAM) (lparam : LPARAM) :
  engine_result env w hwnd WM_CLOSE wparam lparam = None ->
  exists t,
    MessageHandler env hwnd WM_CLOSE wparam lparam w =
    Returned (Win32Window_MessageHandler env hwnd WM_CLOSE wparam lparam) w
      (t ++ [Win32Window_MessageHandler_call hwnd WM_CLOSE wparam lparam]) /\
    count is_base_handler t = 0%nat /\
    (alt_held env = false ->
     forall e, engine_of w = Some e ->
       count is_InvokeMethod t = 1%nat /\
       filter is_InvokeMethod t =
       [ InvokeMethod_call (messenger env e) "gallevr/window"
           StandardMethodCodec "onWindowHidden" None None ]) /\
    (alt_held env = true -> count is_InvokeMethod t = 0%nat) /\
    (engine_of w = None -> count is_InvokeMethod t = 0%nat).
Proof.
  intros Hnone. eexists. split; [exact (MessageHandler_close_not_handled _ _ _ _ _ Hnone)|].
  unfold notification_calls.
  split; [|split; [|split]].
  - rewrite count_app, count_offer_calls by reflexivity.
    destruct (alt_held env); [reflexivity|]. destruct (engine_of w); reflexivity.
  - intros Halt e He. rewrite Halt, He.
    rewrite count_app, count_offer_calls by reflexivity.
    rewrite filter_app, filter_offer_calls by reflexivity.
    split; reflexivity.
  - intros Halt. rewrite Halt.
    rewrite count_app, count_offer_calls by reflexivity. reflexivity.
  - intros He. rewrite He.
    rewrite count_app, count_offer_calls by reflexivity.
    destruct (alt_held env); reflexivity.
Qed.

(** C5.  In the Created state, for a close request the engine did not fully
    handle: if Alt is not held, exactly one method is invoked, [onWindowHidden]
    on channel [gallevr/window] through the messenger of the held engine, with
    no arguments and no result handler; if Alt is held, no method is invoked;
    and in both cases the base handler is then called, once and last, and its
    result is what [MessageHandler] returns. *)
Theorem MessageHandler_close_request_in_created_state
  (env : Env) (w : FlutterWindow) (hwnd : HWND) (wparam : WPARAM) (lparam : LPARAM) :
  created w = true ->
  engine_result env w hwnd WM_CLOSE wparam lparam = None ->
  exists e t0 w',
    engine_of w = Some e /\
    MessageHandler env hwnd WM_CLOSE wparam lparam w =
    Returned (Win32Window_MessageHandler env hwnd WM_CLOSE wparam lparam) w'
      (t0 ++ [Win32Window_MessageHandler_call hwnd WM_CLOSE wparam lparam]) /\
    count is_base_handler t0 = 0%nat /\
    (alt_held env = false ->
       count is_InvokeMethod t0 = 1%nat /\
       filter is_InvokeMethod t0 =
       [ InvokeMethod_call (messenger env e) "gallevr/window"
           StandardMethodCodec "onWindowHidden" None None ]) /\
    (alt_held env = true -> count is_InvokeMethod t0 = 0%nat).
Proof.
  intros Hcreated Hunhandled.
  assert (Hengine : exists e, engine_of w = Some e).
  { unfold created in Hcreated. unfold engine_of.
    destruct (flutter_controller_ w) as [c|]; [|discriminate].
    destruct (engine c) as [e|]; [now exists e | discriminate]. }
  destruct Hengine as (e & He).
  destruct (close_request_invocations env w hwnd wparam lparam Hunhandled)
    as (t0 & Hrun & Hbase & Hsent & Hheld & _).
  exists e, t0, w. split; [exact He|]. split; [exact Hrun|].
  split; [exact Hbase|]. split; [|exact Hheld].
  intros Halt. exact (Hsent Halt e He).
Qed.

Lemma MessageHandler_close_request_created_witness :
  exists e t0 w',
    engine_of (final (OnCreate (sample_env true full_controller None key_up)
                        (fresh_window []))) = Some e /\
    MessageHandler (sample_env true full_controller None key_up) 1 WM_CLOSE 0 0
      (final (OnCreate (sample_env true full_controller None key_up)
                (fresh_window [])))
    = Returned 1016 w' (t0 ++ [Win32Window_MessageHandler_call 1 WM_CLOSE 0 0]) /\
    filter is_InvokeMethod t0 =
    [ InvokeMethod_call (MessengerHandle 1) "gallevr/window"
        StandardMethodCodec "onWindowHidden" None None ].
Proof.
  destruct (MessageHandler_close_request_in_created_state
              (sample_env true full_controller None key_up)
              (final (OnCreate (sample_env true full_controller None key_up)
                        (fresh_window [])))
              1 0 0)
    as (e & t0 & w' & He & Hrun & _ & Hsent & _); [reflexivity | reflexivity |].
  exists e, t0, w'. split; [exact He|]. split; [exact Hrun|].
  destruct (Hsent eq_refl) as (_ & Hfilter).
  rewrite Hfilter. cbv in He. inversion He. reflexivity.
Defined.

(** C9.  For a close request the engine did not handle: a method is invoked
    only if the controller and its engine handle are both non-null; and when
    the controller or its engine handle is null, [MessageHandler] invokes no
    method, makes no call through the engine handle, reads the key state and
    returns the result of the base handler, called last. *)
Theorem close_request_notification_is_guarded
  (env : Env) (w : FlutterWindow) (hwnd : HWND) (wparam : WPARAM) (lparam : LPARAM) :
  engine_result env w hwnd WM_CLOSE wparam lparam = None ->
  let run := MessageHandler env hwnd WM_CLOSE wparam lparam w in
  (count is_InvokeMethod (calls run) <> 0%nat ->
     exists c e, flutter_controller_ w = Some c /\ engine c = Some e) /\
  (flutter_controller_ w = None \/
   (exists c, flutter_controller_ w = Some c /\ engine c = None) ->
     run = Returned (Win32Window_MessageHandler env hwnd WM_CLOSE wparam lparam) w
             (offer_calls w hwnd WM_CLOSE wparam lparam ++
              [ GetAsyncKeyState_call VK_MENU;
                Win32Window_MessageHandler_call hwnd WM_CLOSE wparam lparam ]) /\
     count is_InvokeMethod (calls run) = 0%nat /\
     count uses_engine (calls run) = 0%nat).
Proof.
  intros Hnone run. subst run.
  rewrite (MessageHandler_close_not_handled _ _ _ _ _ Hnone). cbn [calls].
  assert (Hguard : engine_of w = None ->
                   notification_calls env w = []).
  { intros He. unfold notification_calls. rewrite He. now destruct (alt_held env). }
  split.
  - intros Hsent. destruct (engine_of w) as [e|] eqn:He.
    + unfold engine_of in He.
      destruct (flutter_controller_ w) as [c|] eqn:Hc; [|discriminate].
      exists c, e. split; [reflexivity | exact He].
    + exfalso. apply Hsent. rewrite (Hguard eq_refl).
      rewrite !count_app, count_offer_calls by reflexivity. reflexivity.
  - intros Habsent.
    assert (He : engine_of w = None).
    { unfold engine_of. destruct Habsent as [->|(c & -> & ->)]; reflexivity. }
    rewrite (Hguard He). rewrite <- app_assoc. cbn [app].
    split; [reflexivity|].
    rewrite !count_app, !count_offer_calls by reflexivity.
    split; reflexivity.
Qed.

Lemma close_request_guarded_witness :
  MessageHandler (sample_env true engineless_controller None key_up)
    1 WM_CLOSE 0 0 (window_with engineless_controller)
  = Returned 1016 (window_with engineless_controller)
      [ HandleTopLevelWindowProc_call engineless_controller 1 WM_CLOSE 0 0;
        GetAsyncKeyState_call VK_MENU;
        Win32Window_MessageHandler_call 1 WM_CLOSE 0 0 ].
Proof.
  destruct (close_request_notification_is_guarded
              (sample_env true engineless_controller None key_up)
              (window_with engineless_controller) 1 0 0)
    as (_ & Habsent); [reflexivity|].
  destruct Habsent as (Hrun & _).
  - right. exists engineless_controller. split; reflexivity.
  - exact Hrun.
Defined.

(** With Alt held the close request goes to the base handler unannounced. *)
Example close_request_with_alt_held :
  alt_held (sample_env true full_controller None key_down) = true /\
  MessageHandler (sample_env true full_controller None key_down)
    1 WM_CLOSE 0 0 (window_with full_controller)
  = Returned 1016 (window_with full_controller)
      [ HandleTopLevelWindowProc_call full_controller 1 WM_CLOSE 0 0;
        GetAsyncKeyState_call VK_MENU;
        Win32Window_MessageHandler_call 1 WM_CLOSE 0 0 ].
Proof. split; reflexivity. Qed.

(** A font change with a controller and an engine reloads the fonts and then
    falls through; with a controller whose engine handle is null it faults,
    having offered the message to the engine. *)
Example fontchange_with_and_without_engine :
  MessageHandler (sample_env true full_controller None key_up)
    1 WM_FONTCHANGE 0 0 (window_with full_controller)
  = Returned 1029 (window_with full_controller)
      [ HandleTopLevelWindowProc_call full_controller 1 WM_FONTCHANGE 0 0;
        ReloadSystemFonts_call (EngineHandle 7);
        Win32Window_MessageHandler_call 1 WM_FONTCHANGE 0 0 ] /\
  MessageHandler (sample_env true engineless_controller None key_up)
    1 WM_FONTCHANGE 0 0 (window_with engineless_controller)
  = NullDeref (window_with engineless_controller)
      [ HandleTopLevelWindowProc_call engineless_controller 1 WM_FONTCHANGE 0 0 ].
Proof. split; reflexivity. Qed.

(** * Further properties *)

(** ** What a message does, in general *)

Lemma local_handling_run (env : Env) (message : UINT) (w : FlutterWindow) :
  local_handling env message w =
  if Z.eqb message WM_FONTCHANGE && negb (non_null (engine_of w))
  then NullDeref w []
  else Returned tt w (local_calls env message w).
Proof.
  unfold local_calls.
  destruct (Z.eqb_spec message WM_FONTCHANGE) as [->|Hfont].
  - rewrite local_handling_fontchange. now destruct (engine_of w).
  - cbn [andb]. destruct (Z.eqb_spec message WM_CLOSE) as [->|Hclose].
    + apply local_handling_close.
    + now apply local_handling_other.
Qed.

Lemma engine_result_some (env : Env) (w : FlutterWindow) (hwnd : HWND)
  (message : UINT) (wparam : WPARAM) (lparam : LPARAM) (r : LRESULT) :
  engine_result env w hwnd message wparam lparam = Some r ->
  exists c,
    flutter_controller_ w = Some c /\
    HandleTopLevelWindowProc env c hwnd message wparam lparam = Some r.
Proof.
  unfold engine_result. destruct (flutter_controller_ w) as [c|]; [|discriminate].
  intros H. now exists c.
Qed.

(** Every run of [MessageHandler], in one equation. *)
Lemma MessageHandler_run (env : Env) (w : FlutterWindow) (hwnd : HWND)
  (message : UINT) (wparam : WPARAM) (lparam : LPARAM) :
  MessageHandler env hwnd message wparam lparam w =
  match engine_result env w hwnd message wparam lparam with
  | Some r => Returned r w (offer_calls w hwnd message wparam lparam)
  | None =>
      if Z.eqb message WM_FONTCHANGE && negb (non_null (engine_of w))
      then NullDeref w (offer_calls w hwnd message wparam lparam)
      else
        Returned (Win32Window_MessageHandler env hwnd message wparam lparam) w
          (offer_calls w hwnd message wparam lparam ++
           local_calls env message w ++
           [Win32Window_MessageHandler_call hwnd message wparam lparam])
  end.
Proof.
  destruct (engine_result env w hwnd message wparam lparam) as [r|] eqn:Hres.
  - destruct (engine_result_some _ _ _ _ _ _ _ Hres) as (c & Hc & Hhandled).
    unfold offer_calls, MessageHandler, bind at 1. cbn [gets]. rewrite Hc.
    unfold bind. cbn [call]. now rewrite Hhandled.
  - rewrite (MessageHandler_not_handled _ _ _ _ _ _ Hres), local_handling_run.
    destruct (Z.eqb message WM_FONTCHANGE && negb (non_null (engine_of w)));
      [now rewrite app_nil_r | reflexivity].
Qed.

Lemma count_local_calls (p : Event -> bool) (env : Env) (message : UINT)
  (w : FlutterWindow) :
  (forall e, p (ReloadSystemFonts_call e) = false) ->
  (forall k, p (GetAsyncKeyState_call k) = false) ->
  (forall e, p (messenger_call e) = false) ->
  (forall m ch co me a r, p (InvokeMethod_call m ch co me a r) = false) ->
  count p (local_calls env message w) = 0%nat.
Proof.
  intros Hreload Hkey Hmes Hinv. unfold local_calls, notification_calls, count.
  destruct (Z.eqb message WM_FONTCHANGE).
  - destruct (engine_of w); cbn; [rewrite Hreload|]; reflexivity.
  - destruct (Z.eqb message WM_CLOSE); [|reflexivity].
    cbn [filter]. rewrite Hkey.
    destruct (alt_held env); [reflexivity|].
    destruct (engine_of w); cbn; [rewrite Hmes, Hinv|]; reflexivity.
Qed.

(** X2.  [MessageHandler] dereferences a null pointer exactly when the message
    is a font change, the engine did not handle it (or was not asked), and no
    engine handle is reachable: there is no controller, or its engine handle is
    null.  When it faults, the only call made is the offer to the engine, if
    there was a controller. *)
Theorem MessageHandler_faults_iff
  (env : Env) (w : FlutterWindow) (hwnd : HWND) (message : UINT)
  (wparam : WPARAM) (lparam : LPARAM) :
  let run := MessageHandler env hwnd message wparam lparam w in
  (faulted run = true <->
     message = WM_FONTCHANGE /\
     engine_result env w hwnd message wparam lparam = None /\
     engine_of w = None) /\
  (faulted run = true ->
     calls run = offer_calls w hwnd message wparam lparam).
Proof.
  intros run. subst run. rewrite MessageHandler_run.
  destruct (engine_result env w hwnd message wparam lparam) as [r|].
  - cbn. split; [split|]; try discriminate. intros (_ & H & _). discriminate.
  - destruct (Z.eqb_spec message WM_FONTCHANGE) as [Hfont|Hfont]; cbn [andb].
    + destruct (engine_of w) as [e|]; cbn.
      * split; [split|]; try discriminate. intros (_ & _ & H). discriminate.
      * split; [split|]; auto.
    + cbn. split; [split|]; try discriminate. intros (H & _). contradiction.
Qed.

Lemma MessageHandler_faults_witness :
  faulted (MessageHandler (sample_env true engineless_controller None key_up)
             1 WM_FONTCHANGE 0 0 (window_with engineless_controller)) = true.
Proof.
  apply (MessageHandler_faults_iff
           (sample_env true engineless_controller None key_up)
           (window_with engineless_controller) 1 WM_FONTCHANGE 0 0).
  repeat split.
Defined.

(** X3.  A font change the engine did not handle, with a controller whose
    engine handle is non-null: after the offer, the fonts are reloaded on that
    engine exactly once, then the base handler is called and its result
    returned. *)
Theorem MessageHandler_fontchange_reloads_fonts_once
  (env : Env) (w : FlutterWindow) (e : FlutterEngine) (hwnd : HWND)
  (wparam : WPARAM) (lparam : LPARAM) :
  engine_result env w hwnd WM_FONTCHANGE wparam lparam = None ->
  engine_of w = Some e ->
  let run := MessageHandler env hwnd WM_FONTCHANGE wparam lparam w in
  run = Returned (Win32Window_MessageHandler env hwnd WM_FONTCHANGE wparam lparam) w
          (offer_calls w hwnd WM_FONTCHANGE wparam lparam ++
           [ ReloadSystemFonts_call e;
             Win32Window_MessageHandler_call hwnd WM_FONTCHANGE wparam lparam ]) /\
  count is_reload (calls run) = 1%nat /\
  count is_InvokeMethod (calls run) = 0%nat.
Proof.
  intros Hres He run. subst run. rewrite MessageHandler_run, Hres, He.
  unfold local_calls. rewrite He. cbn [Z.eqb WM_FONTCHANGE Pos.eqb andb non_null negb app calls].
  split; [reflexivity|].
  rewrite !count_app, !count_offer_calls by reflexivity. split; reflexivity.
Qed.

Lemma MessageHandler_fontchange_reloads_witness :
  MessageHandler (sample_env true full_controller None key_up)
    1 WM_FONTCHANGE 0 0 (window_with full_controller)
  = Returned 1029 (window_with full_controller)
      [ HandleTopLevelWindowProc_call full_controller 1 WM_FONTCHANGE 0 0;
        ReloadSystemFonts_call (EngineHandle 7);
        Win32Window_MessageHandler_call 1 WM_FONTCHANGE 0 0 ].
Proof.
  apply (MessageHandler_fontchange_reloads_fonts_once
           (sample_env true full_controller None key_up)
           (window_with full_controller) (EngineHandle 7) 1 0 0);
    reflexivity.
Defined.

(** X4.  A message that is neither a font change nor a close request and that
    the engine did not handle is passed to the base handler untouched: besides
    the offer, the base handler's call is the only call, and its result is
    returned.  This holds in every state of the window, with or without a
    controller. *)
Theorem MessageHandler_other_message_passes_through
  (env : Env) (w : FlutterWindow) (hwnd : HWND) (message : UINT)
  (wparam : WPARAM) (lparam : LPARAM) :
  message <> WM_FONTCHANGE -> message <> WM_CLOSE ->
  engine_result env w hwnd message wparam lparam = None ->
  MessageHandler env hwnd message wparam lparam w =
  Returned (Win32Window_MessageHandler env hwnd message wparam lparam) w
    (offer_calls w hwnd message wparam lparam ++
     [Win32Window_MessageHandler_call hwnd message wparam lparam]).
Proof.
  intros Hfont Hclose Hres. rewrite MessageHandler_run, Hres.
  unfold local_calls.
  apply Z.eqb_neq in Hfont. apply Z.eqb_neq in Hclose.
  now rewrite Hfont, Hclose.
Qed.

Lemma MessageHandler_other_message_witness :
  MessageHandler (sample_env true full_controller None key_up)
    1 5 0 0 (fresh_window [])
  = Returned 1005 (fresh_window []) [Win32Window_MessageHandler_call 1 5 0 0].
Proof.
  apply (MessageHandler_other_message_passes_through
           (sample_env true full_controller None key_up) (fresh_window []) 1 5 0 0);
    [discriminate | discriminate | reflexivity].
Defined.

(** X5.  The engine is offered a message at most once and before anything
    else: with a controller [c], the first call of every run is
    [c->HandleTopLevelWindowProc] with the four parameters [MessageHandler]
    received, and no later call is an offer; without a controller no offer is
    made. *)
Theorem MessageHandler_offers_engine_first
  (env : Env) (w : FlutterWindow) (hwnd : HWND) (message : UINT)
  (wparam : WPARAM) (lparam : LPARAM) :
  let run := MessageHandler env hwnd message wparam lparam w in
  (forall c, flutter_controller_ w = Some c ->
     exists rest,
       calls run = HandleTopLevelWindowProc_call c hwnd message wparam lparam :: rest /\
       count is_offer rest = 0%nat) /\
  (flutter_controller_ w = None -> count is_offer (calls run) = 0%nat).
Proof.
  intros run. subst run.
  assert (Hshape : exists rest,
            calls (MessageHandler env hwnd message wparam lparam w)
            = offer_calls w hwnd message wparam lparam ++ rest /\
            count is_offer rest = 0%nat).
  { rewrite MessageHandler_run.
    destruct (engine_result env w hwnd message wparam lparam).
    - exists []. cbn. now rewrite app_nil_r.
    - destruct (Z.eqb message WM_FONTCHANGE && negb (non_null (engine_of w))).
      + exists []. cbn. now rewrite app_nil_r.
      + eexists. split; [reflexivity|].
        rewrite count_app, count_local_calls by reflexivity. reflexivity. }
  destruct Hshape as (rest & Hcalls & Hrest). rewrite Hcalls. unfold offer_calls.
  split.
  - intros c Hc. rewrite Hc. now exists rest.
  - intros Hnone. now rewrite Hnone.
Qed.

Lemma MessageHandler_offers_engine_first_witness :
  exists rest,
    calls (MessageHandler (sample_env true full_controller None key_up)
             1 WM_CLOSE 2 3 (window_with full_controller))
    = HandleTopLevelWindowProc_call full_controller 1 WM_CLOSE 2 3 :: rest /\
    count is_offer rest = 0%nat.
Proof.
  apply (MessageHandler_offers_engine_first
           (sample_env true full_controller None key_up)
           (window_with full_controller) 1 WM_CLOSE 2 3).
  reflexivity.
Defined.

(** X6.  The base handler is called at most once per message, and exactly
    when the engine did not handle the message and no fault occurred; it is
    then the last call, it receives the four parameters unchanged, and its
    result is what [MessageHandler] returns. *)
Theorem MessageHandler_base_handler_exactly_when_unhandled
  (env : Env) (w : FlutterWindow) (hwnd : HWND) (message : UINT)
  (wparam : WPARAM) (lparam : LPARAM) :
  let run := MessageHandler env hwnd message wparam lparam w in
  let unhandled_run :=
    match engine_result env w hwnd message wparam lparam with
    | Some _ => false
    | None => negb (faulted run)
    end in
  count is_base_handler (calls run) = (if unhandled_run then 1 else 0)%nat /\
  (unhandled_run = true ->
     exists t0,
       run = Returned (Win32Window_MessageHandler env hwnd message wparam lparam) w
               (t0 ++ [Win32Window_MessageHandler_call hwnd message wparam lparam]) /\
       count is_base_handler t0 = 0%nat).
Proof.
  intros run unhandled_run. subst unhandled_run run. rewrite MessageHandler_run.
  destruct (engine_result env w hwnd message wparam lparam).
  - cbn [calls]. rewrite count_offer_calls by reflexivity.
    split; [reflexivity | discriminate].
  - destruct (Z.eqb message WM_FONTCHANGE && negb (non_null (engine_of w)));
      cbn [faulted negb calls].
    + rewrite count_offer_calls by reflexivity. split; [reflexivity | discriminate].
    + rewrite !count_app, count_offer_calls, count_local_calls by reflexivity.
      split; [reflexivity|]. intros _.
      exists (offer_calls w hwnd message wparam lparam ++ local_calls env message w).
      rewrite <- app_assoc. split; [reflexivity|].
      rewrite count_app, count_offer_calls, count_local_calls by reflexivity.
      reflexivity.
Qed.

Lemma MessageHandler_base_handler_witness :
  count is_base_handler
    (calls (MessageHandler (sample_env true full_controller (Some 9) key_up)
              1 WM_CLOSE 0 0 (window_with full_controller))) = 0%nat /\
  count is_base_handler
    (calls (MessageHandler (sample_env true full_controller None key_up)
              1 WM_CLOSE 0 0 (window_with full_controller))) = 1%nat.
Proof.
  split.
  - exact (proj1 (MessageHandler_base_handler_exactly_when_unhandled
                    (sample_env true full_controller (Some 9) key_up)
                    (window_with full_controller) 1 WM_CLOSE 0 0)).
  - exact (proj1 (MessageHandler_base_handler_exactly_when_unhandled
                    (sample_env true full_controller None key_up)
                    (window_with full_controller) 1 WM_CLOSE 0 0)).
Defined.

(** ** What creation does, in general *)

(** Every run of [OnCreate], in one equation. *)
Lemma OnCreate_run (env : Env) (w : FlutterWindow) :
  OnCreate env w =
  if Win32Window_OnCreate env then
    match engine (constructed env w), view (constructed env w) with
    | Some e, Some v =>
        Returned true (set_flutter_controller_ (Some (constructed env w)) w)
          (construction_calls env w ++ registration_calls env e ++
           attachment_calls env (constructed env w) e v)
    | _, _ =>
        Returned false (set_flutter_controller_ (Some (constructed env w)) w)
          (construction_calls env w)
    end
  else Returned false w [Win32Window_OnCreate_call].
Proof.
  destruct (Win32Window_OnCreate env) eqn:Hbase.
  - destruct (engine (constructed env w)) as [e|] eqn:He.
    + destruct (view (constructed env w)) as [v|] eqn:Hv.
      * exact (OnCreate_handles_present env w e v Hbase He Hv).
      * apply OnCreate_null_handle; auto.
    + assert (Hrun := OnCreate_null_handle env w Hbase (or_introl He)).
      rewrite Hrun. now destruct (view (constructed env w)).
  - exact (OnCreate_base_failed env w Hbase).
Qed.

Lemma count_registration_calls (p : Event -> bool) (env : Env) (e : FlutterEngine) :
  (forall r name, p (GetRegistrarForPlugin_call r name) = false) ->
  (forall entry r, p (RegisterWithRegistrar_call entry r) = false) ->
  count p (registration_calls env e) = 0%nat.
Proof.
  intros Hget Hreg. unfold count, registration_calls. cbn.
  now rewrite !Hget, !Hreg.
Qed.

(** A successful creation, read backwards. *)
Lemma OnCreate_true_state (env : Env) (w w' : FlutterWindow) (t : list Event) :
  OnCreate env w = Returned true w' t ->
  exists e v,
    Win32Window_OnCreate env = true /\
    engine (constructed env w) = Some e /\ view (constructed env w) = Some v /\
    w' = set_flutter_controller_ (Some (constructed env w)) w /\
    t = construction_calls env w ++ registration_calls env e ++
        attachment_calls env (constructed env w) e v.
Proof.
  rewrite OnCreate_run.
  destruct (Win32Window_OnCreate env); [|discriminate].
  destruct (engine (constructed env w)) as [e|]; [|discriminate].
  destruct (view (constructed env w)) as [v|]; [|discriminate].
  intros H. inversion H. now exists e, v.
Qed.

(** X7.  [OnCreate] never shows the window: whatever its outcome, it makes no
    call of [Show], and the visibility and the project of the window are what
    they were.  Showing is left to the first-frame callback. *)
Theorem OnCreate_never_shows_the_window (env : Env) (w : FlutterWindow) :
  let run := OnCreate env w in
  count is_Show (calls run) = 0%nat /\
  visible (final run) = visible w /\
  project_ (final run) = project_ w.
Proof.
  intros run. subst run. rewrite OnCreate_run.
  destruct (Win32Window_OnCreate env); [|repeat split].
  destruct (engine (constructed env w)) as [e|];
    [destruct (view (constructed env w)) as [v|]|];
    cbn [calls final set_flutter_controller_ visible project_];
    rewrite ?count_app, ?count_construction_calls, ?count_registration_calls
      by reflexivity;
    repeat split.
Qed.

(** X8.  When [OnCreate] returns [true], the window holds the controller it
    constructed, whose engine and view handles are non-null; the plugins were
    registered against that engine, after the construction and before the
    view's native window was attached as child content; the first-frame
    callback was then set on the same engine; and the forced redraw on the
    stored controller is the last call, right after the callback was set.
    This does not depend on the startup arguments. *)
Theorem OnCreate_success_order_of_setup
  (env : Env) (w w' : FlutterWindow) (t : list Event) :
  OnCreate env w = Returned true w' t ->
  exists c e v,
    flutter_controller_ w' = Some c /\ engine c = Some e /\ view c = Some v /\
    c = constructed env w /\
    t = construction_calls env w ++ registration_calls env e ++
        [ GetNativeWindow_call v; SetChildContent_call (GetNativeWindow env v);
          SetNextFrameCallback_call e; ForceRedraw_call c ] /\
    count is_setup (construction_calls env w) = 0%nat /\
    count is_new t = 1%nat.
Proof.
  intros Hrun.
  destruct (OnCreate_true_state env w w' t Hrun) as (e & v & _ & He & Hv & -> & ->).
  exists (constructed env w), e, v.
  repeat split; auto.
  - now apply count_construction_calls.
  - rewrite !count_app, count_registration_calls by reflexivity.
    unfold construction_calls, delete_owned, count.
    destruct (flutter_controller_ w); reflexivity.
Qed.

Lemma OnCreate_success_order_witness :
  exists c e v,
    flutter_controller_
      (final (OnCreate (sample_env true full_controller None key_up)
                (fresh_window ["--start-minimized"]))) = Some c /\
    engine c = Some e /\ view c = Some v.
Proof.
  destruct (OnCreate_success_order_of_setup
              (sample_env true full_controller None key_up)
              (fresh_window ["--start-minimized"])
              (final (OnCreate (sample_env true full_controller None key_up)
                        (fresh_window ["--start-minimized"])))
              (calls (OnCreate (sample_env true full_controller None key_up)
                        (fresh_window ["--start-minimized"]))))
    as (c & e & v & Hc & He & Hv & _); [reflexivity|].
  now exists c, e, v.
Defined.

(** X9.  After [OnCreate] has returned [true], no message can make
    [MessageHandler] dereference a null pointer, whatever the collaborators
    answer then: it returns a result. *)
Theorem MessageHandler_after_successful_OnCreate_never_faults
  (env : Env) (w w' : FlutterWindow) (t : list Event)
  (env' : Env) (hwnd : HWND) (message : UINT) (wparam : WPARAM) (lparam : LPARAM) :
  OnCreate env w = Returned true w' t ->
  let run := MessageHandler env' hwnd message wparam lparam w' in
  faulted run = false /\
  exists result w'' t', run = Returned result w'' t'.
Proof.
  intros Hrun run. subst run.
  destruct (OnCreate_true_state env w w' t Hrun) as (e & v & _ & He & _ & -> & _).
  rewrite MessageHandler_run.
  assert (Heng : engine_of (set_flutter_controller_ (Some (constructed env w)) w)
                 = Some e) by exact He.
  rewrite Heng. cbn [non_null negb]. rewrite andb_false_r.
  destruct (engine_result env' _ hwnd message wparam lparam);
    cbn [faulted]; split; eauto.
Qed.

(** A successful [OnCreate] leaves the window in the Created state. *)
Lemma OnCreate_true_created (env : Env) (w w' : FlutterWindow) (t : list Event) :
  OnCreate env w = Returned true w' t -> created w' = true.
Proof.
  intros Hrun.
  destruct (OnCreate_true_state env w w' t Hrun) as (e & v & _ & He & Hv & -> & _).
  unfold created. cbn [set_flutter_controller_ flutter_controller_].
  now rewrite He, Hv.
Qed.

Lemma MessageHandler_after_OnCreate_witness :
  faulted
    (MessageHandler (sample_env true engineless_controller None key_down)
       1 WM_FONTCHANGE 0 0
       (final (OnCreate (sample_env true full_controller None key_up)
                 (fresh_window [])))) = false.
Proof.
  apply (MessageHandler_after_successful_OnCreate_never_faults
           (sample_env true full_controller None key_up) (fresh_window [])
           (final (OnCreate (sample_env true full_controller None key_up)
                     (fresh_window [])))
           (calls (OnCreate (sample_env true full_controller None key_up)
                     (fresh_window [])))
           (sample_env true engineless_controller None key_down)
           1 WM_FONTCHANGE 0 0).
  reflexivity.
Defined.

(** ** Creation and destruction together *)

Lemma OnDestroy_calls_and_final (w : FlutterWindow) :
  calls (OnDestroy w) = delete_owned w ++ [Win32Window_OnDestroy_call] /\
  faulted (OnDestroy w) = false /\
  flutter_controller_ (final (OnDestroy w)) = None /\
  project_ (final (OnDestroy w)) = project_ w /\
  visible (final (OnDestroy w)) = visible w.
Proof.
  destruct (release_flutter_controller__run w)
    as (w1 & Hrel & Hnone & Hproj & Hvis & _).
  unfold OnDestroy, bind. rewrite Hrel. cbn. auto.
Qed.

Lemma filter_delete_construction_calls (env : Env) (w : FlutterWindow) :
  filter is_delete (construction_calls env w) = delete_owned w.
Proof.
  unfold construction_calls, delete_owned. cbn.
  destruct (flutter_controller_ w); reflexivity.
Qed.

Lemma count_new_construction_calls (env : Env) (w : FlutterWindow) :
  count is_new (construction_calls env w) = 1%nat.
Proof.
  unfold construction_calls, delete_owned, count. cbn.
  destruct (flutter_controller_ w); reflexivity.
Qed.

Lemma filter_delete_delete_owned (w : FlutterWindow) :
  filter is_delete (delete_owned w) = delete_owned w.
Proof. unfold delete_owned. destruct (flutter_controller_ w); reflexivity. Qed.

Lemma count_new_delete_owned (w : FlutterWindow) :
  count is_new (delete_owned w) = 0%nat.
Proof. unfold delete_owned. destruct (flutter_controller_ w); reflexivity. Qed.

(** X10.  [OnCreate] followed by [OnDestroy] leaks no controller and deletes
    none twice, whether the creation succeeded or not.  Over both runs the
    deletions are: the controller the window held before, if any, and then
    the one [OnCreate] constructed, if the base step let it construct one.
    Exactly that many controllers were constructed, the window ends with an
    empty reference, and the base destruction is the last call. *)
Theorem OnCreate_then_OnDestroy_deletes_each_controller_once
  (env : Env) (w : FlutterWindow) :
  let created := OnCreate env w in
  let destroyed := OnDestroy (final created) in
  let t := calls created ++ calls destroyed in
  faulted created = false /\ faulted destroyed = false /\
  flutter_controller_ (final destroyed) = None /\
  filter is_delete t =
    delete_owned w ++
    (if Win32Window_OnCreate env
     then [FlutterViewController_delete (constructed env w)] else []) /\
  count is_new t = (if Win32Window_OnCreate env then 1 else 0)%nat /\
  exists t0, t = t0 ++ [Win32Window_OnDestroy_call].
Proof.
  intros created destroyed t. subst t destroyed created.
  destruct (OnDestroy_calls_and_final (final (OnCreate env w)))
    as (Hcalls & Hfault & Hnone & _ & _).
  rewrite Hcalls. split; [|split; [exact Hfault|split; [exact Hnone|]]].
  { rewrite OnCreate_run. destruct (Win32Window_OnCreate env); [|reflexivity].
    destruct (engine (constructed env w));
      [destruct (view (constructed env w))|]; reflexivity. }
  split; [|split].
  - rewrite OnCreate_run.
    destruct (Win32Window_OnCreate env).
    + destruct (engine (constructed env w)) as [e|];
        [destruct (view (constructed env w)) as [v|]|];
        cbn [calls final];
        change (delete_owned (set_flutter_controller_ (Some (constructed env w)) w))
          with [FlutterViewController_delete (constructed env w)];
        rewrite !filter_app, filter_delete_construction_calls;
        cbn; rewrite ?app_nil_r; reflexivity.
    + cbn [calls final app filter is_delete].
      rewrite filter_app, filter_delete_delete_owned. cbn. reflexivity.
  - rewrite OnCreate_run.
    destruct (Win32Window_OnCreate env).
    + destruct (engine (constructed env w)) as [e|];
        [destruct (view (constructed env w)) as [v|]|];
        cbn [calls final];
        rewrite !count_app, count_new_construction_calls,
          ?count_registration_calls by reflexivity;
        reflexivity.
    + cbn [calls final]. rewrite !count_app, count_new_delete_owned. reflexivity.
  - eexists. rewrite app_assoc. reflexivity.
Qed.

Lemma OnCreate_then_OnDestroy_witness :
  filter is_delete
    (calls (OnCreate (sample_env true engineless_controller None key_up)
              (window_with full_controller))
     ++ calls (OnDestroy
                 (final (OnCreate (sample_env true engineless_controller None key_up)
                           (window_with full_controller)))))
  = [ FlutterViewController_delete full_controller;
      FlutterViewController_delete engineless_controller ].
Proof.
  exact (proj1 (proj2 (proj2 (proj2
           (OnCreate_then_OnDestroy_deletes_each_controller_once
              (sample_env true engineless_controller None key_up)
              (window_with full_controller)))))).
Defined.

(** X11.  [OnCreate] on a window that already holds a controller: if the base
    step succeeds, the new controller is constructed first, the old one is
    deleted right after it and before any further call, no other controller
    is deleted, and the window then holds the new controller; if the base
    step fails, the old controller is neither deleted nor replaced. *)
Theorem OnCreate_replaces_held_controller
  (env : Env) (w : FlutterWindow) (c0 : FlutterViewController) :
  flutter_controller_ w = Some c0 ->
  let run := OnCreate env w in
  let frame := GetClientArea env in
  (Win32Window_OnCreate env = true ->
     exists rest,
       calls run =
         [ Win32Window_OnCreate_call; GetClientArea_call;
           FlutterViewController_new (right frame - left frame)
             (bottom frame - top frame) (project_ w);
           FlutterViewController_delete c0 ] ++ rest /\
       count is_delete rest = 0%nat /\ count is_new rest = 0%nat /\
       flutter_controller_ (final run) = Some (constructed env w)) /\
  (Win32Window_OnCreate env = false ->
     final run = w /\ count is_delete (calls run) = 0%nat).
Proof.
  intros Hheld run frame. subst run frame. rewrite OnCreate_run.
  assert (Hcc : construction_calls env w =
                [ Win32Window_OnCreate_call; GetClientArea_call;
                  FlutterViewController_new
                    (right (GetClientArea env) - left (GetClientArea env))
                    (bottom (GetClientArea env) - top (GetClientArea env))
                    (project_ w);
                  FlutterViewController_delete c0 ]).
  { unfold construction_calls, delete_owned. now rewrite Hheld. }
  split; intros Hbase; rewrite Hbase; [|split; reflexivity].
  destruct (engine (constructed env w)) as [e|];
    [destruct (view (constructed env w)) as [v|]|]; cbn [calls final]; rewrite Hcc.
  - eexists. split; [reflexivity|].
    rewrite !count_app, !count_registration_calls by reflexivity.
    repeat split.
  - exists []. repeat split.
  - exists []. repeat split.
Qed.

Lemma OnCreate_replaces_held_controller_witness :
  flutter_controller_
    (final (OnCreate (sample_env true viewless_controller None key_up)
              (window_with full_controller))) = Some viewless_controller.
Proof.
  destruct (OnCreate_replaces_held_controller
              (sample_env true viewless_controller None key_up)
              (window_with full_controller) full_controller eq_refl)
    as (Hok & _).
  destruct (Hok eq_refl) as (rest & _ & _ & _ & Hfinal).
  exact Hfinal.
Defined.

(** ** From the constructor to the first frame *)

Lemma first_frame_callback_run (w : FlutterWindow) :
  first_frame_callback w =
  if scan_start_minimized (dart_entrypoint_arguments (project_ w))
  then Returned tt w []
  else Returned tt (set_visible true w) [Show_call].
Proof.
  unfold first_frame_callback, bind, gets.
  destruct (scan_start_minimized (dart_entrypoint_arguments (project_ w)));
    reflexivity.
Qed.

(** X12.  A window constructed for [project] and created successfully is still
    hidden when [OnCreate] returns.  The first-frame callback then decides by
    the arguments the constructor was given: if they contain
    [--start-minimized] the window stays hidden and [Show] was never called
    since construction; otherwise it is visible and [Show] was called exactly
    once.  The callback does not touch the controller. *)
Theorem startup_shows_window_unless_start_minimized
  (env : Env) (project : DartProject) (w' : FlutterWindow) (t : list Event) :
  OnCreate env (FlutterWindow_new project) = Returned true w' t ->
  let run := first_frame_callback w' in
  visible w' = false /\ faulted run = false /\
  flutter_controller_ (final run) = flutter_controller_ w' /\
  (In "--start-minimized" (dart_entrypoint_arguments project) ->
     visible (final run) = false /\ count is_Show (t ++ calls run) = 0%nat) /\
  (~ In "--start-minimized" (dart_entrypoint_arguments project) ->
     visible (final run) = true /\ count is_Show (t ++ calls run) = 1%nat).
Proof.
  intros Hrun run. subst run.
  destruct (OnCreate_true_state _ _ _ _ Hrun) as (e & v & _ & _ & _ & -> & ->).
  rewrite first_frame_callback_run.
  cbn [set_flutter_controller_ project_ FlutterWindow_new].
  assert (Hquiet : count is_Show
                     (construction_calls env (FlutterWindow_new project) ++
                      registration_calls env e ++
                      attachment_calls env
                        (constructed env (FlutterWindow_new project)) e v) = 0%nat).
  { rewrite !count_app, count_construction_calls, count_registration_calls
      by reflexivity. reflexivity. }
  destruct (scan_start_minimized (dart_entrypoint_arguments project)) eqn:Hscan;
    cbn [faulted final calls visible flutter_controller_ set_visible
         set_flutter_controller_ FlutterWindow_new].
  - apply scan_start_minimized_In in Hscan.
    split; [reflexivity|]. split; [reflexivity|]. split; [reflexivity|]. split.
    + intros _. split; [reflexivity|]. now rewrite app_nil_r.
    + intros Hnot. contradiction.
  - apply scan_start_minimized_not_In in Hscan.
    split; [reflexivity|]. split; [reflexivity|]. split; [reflexivity|]. split.
    + intros Hin. contradiction.
    + intros _. split; [reflexivity|]. rewrite count_app, Hquiet. reflexivity.
Qed.

Lemma startup_shows_window_witness :
  visible
    (final (first_frame_callback
              (final (OnCreate (sample_env true full_controller None key_up)
                        (FlutterWindow_new
                           {| dart_entrypoint_arguments :=
                                ["--verbose"; "--start-minimized"] |})))))
  = false.
Proof.
  destruct (startup_shows_window_unless_start_minimized
              (sample_env true full_controller None key_up)
              {| dart_entrypoint_arguments := ["--verbose"; "--start-minimized"] |}
              (final (OnCreate (sample_env true full_controller None key_up)
                        (FlutterWindow_new
                           {| dart_entrypoint_arguments :=
                                ["--verbose"; "--start-minimized"] |})))
              (calls (OnCreate (sample_env true full_controller None key_up)
                        (FlutterWindow_new
                           {| dart_entrypoint_arguments :=
                                ["--verbose"; "--start-minimized"] |}))))
    as (_ & _ & _ & Hflag & _); [reflexivity|].
  apply Hflag. cbn. auto.
Defined.

(** ** After destruction *)

(** X13.  Once [OnDestroy] has run, from whatever state, the engine is out of
    the message path: every message other than a font change is answered by
    the base handler alone, with no offer to the engine, no call through an
    engine handle and no method invocation, so a close request is no longer
    announced; the reference stays empty. *)
Theorem MessageHandler_after_OnDestroy_bypasses_engine
  (env : Env) (w : FlutterWindow) (hwnd : HWND) (message : UINT)
  (wparam : WPARAM) (lparam : LPARAM) :
  message <> WM_FONTCHANGE ->
  let w' := final (OnDestroy w) in
  let run := MessageHandler env hwnd message wparam lparam w' in
  exists t0,
    run = Returned (Win32Window_MessageHandler env hwnd message wparam lparam) w'
            (t0 ++ [Win32Window_MessageHandler_call hwnd message wparam lparam]) /\
    count is_offer t0 = 0%nat /\ count uses_engine t0 = 0%nat /\
    count is_InvokeMethod t0 = 0%nat /\
    (message <> WM_CLOSE -> t0 = []) /\
    flutter_controller_ (final run) = None.
Proof.
  intros Hfont w' run. subst run w'.
  destruct (OnDestroy_calls_and_final w) as (_ & _ & Hnone & _ & _).
  set (w' := final (OnDestroy w)) in *.
  rewrite MessageHandler_run.
  unfold engine_result, offer_calls, local_calls, notification_calls, engine_of.
  rewrite Hnone. apply Z.eqb_neq in Hfont. rewrite Hfont. cbn [andb app].
  eexists. split; [reflexivity|]. cbn [final].
  destruct (Z.eqb_spec message WM_CLOSE) as [Hclose|Hclose].
  - destruct (alt_held env); repeat split; auto; contradiction.
  - repeat split; auto.
Qed.

Lemma MessageHandler_after_OnDestroy_witness :
  exists t0,
    MessageHandler (sample_env true full_controller (Some 9) key_up)
      1 WM_CLOSE 0 0 (final (OnDestroy (window_with full_controller)))
    = Returned 1016 (final (OnDestroy (window_with full_controller)))
        (t0 ++ [Win32Window_MessageHandler_call 1 WM_CLOSE 0 0]) /\
    count is_offer t0 = 0%nat /\ count is_InvokeMethod t0 = 0%nat.
Proof.
  destruct (MessageHandler_after_OnDestroy_bypasses_engine
              (sample_env true full_controller (Some 9) key_up)
              (window_with full_controller) 1 WM_CLOSE 0 0)
    as (t0 & Hrun & Hoffer & _ & Hinvoke & _); [discriminate|].
  exists t0. split; [exact Hrun|]. split; assumption.
Defined.

(** ** The registrant and the key state *)

(** X14.  [RegisterPlugins] does not check its argument: it returns exactly
    when the registry pointer is non-null, and with a null registry it faults
    at the first lookup, before any registrar was looked up and before any
    plugin was registered. *)
Theorem RegisterPlugins_returns_iff_registry_non_null
  (env : Env) (registry : option FlutterEngine) (w : FlutterWindow) :
  let run := RegisterPlugins env registry w in
  (faulted run = false <-> registry <> None) /\
  (faulted run = true -> calls run = []) /\
  (faulted run = false -> List.length (calls run) = 12%nat).
Proof.
  intros run. subst run. destruct registry as [e|].
  - rewrite RegisterPlugins_calls. cbn [faulted calls].
    split; [split; [discriminate | reflexivity]|].
    split; [discriminate | reflexivity].
  - cbn. split; [split; [discriminate | intros H; now contradiction H]|].
    split; [reflexivity | discriminate].
Qed.

Lemma RegisterPlugins_null_registry_witness :
  calls (RegisterPlugins (sample_env true full_controller None key_up)
           None (fresh_window [])) = [].
Proof.
  apply (RegisterPlugins_returns_iff_registry_non_null
           (sample_env true full_controller None key_up) None (fresh_window [])).
  reflexivity.
Defined.

(** X15.  The Alt test [GetAsyncKeyState(VK_MENU) & 0x8000] looks at the sign
    of the [SHORT] only: for a close request the engine did not handle, in a
    window whose engine handle is there, [onWindowHidden] is invoked once if
    the key state is non-negative, whatever its low bits, and not at all if it
    is negative. *)
Theorem close_request_notified_by_sign_of_key_state
  (env : Env) (w : FlutterWindow) (e : FlutterEngine) (hwnd : HWND)
  (wparam : WPARAM) (lparam : LPARAM) :
  -32768 <= GetAsyncKeyState env VK_MENU < 32768 ->
  engine_result env w hwnd WM_CLOSE wparam lparam = None ->
  engine_of w = Some e ->
  count is_InvokeMethod (calls (MessageHandler env hwnd WM_CLOSE wparam lparam w))
  = if (GetAsyncKeyState env VK_MENU <? 0)%Z then 0%nat else 1%nat.
Proof.
  intros Hrange Hres He.
  rewrite (MessageHandler_close_not_handled _ _ _ _ _ Hres). cbn [calls].
  rewrite !count_app, count_offer_calls by reflexivity.
  unfold notification_calls.
  rewrite (alt_held_is_sign_of_short env Hrange), He.
  destruct (GetAsyncKeyState env VK_MENU <? 0)%Z; reflexivity.
Qed.

Lemma close_request_notified_by_sign_witness :
  count is_InvokeMethod
    (calls (MessageHandler (sample_env true full_controller None 1)
              1 WM_CLOSE 0 0 (window_with full_controller))) = 1%nat /\
  count is_InvokeMethod
    (calls (MessageHandler (sample_env true full_controller None (-32767))
              1 WM_CLOSE 0 0 (window_with full_controller))) = 0%nat.
Proof.
  split.
  - apply (close_request_notified_by_sign_of_key_state
             (sample_env true full_controller None 1)
             (window_with full_controller) (EngineHandle 7) 1 0 0);
      [cbn; lia | reflexivity | reflexivity].
  - apply (close_request_notified_by_sign_of_key_state
             (sample_env true full_controller None (-32767))
             (window_with full_controller) (EngineHandle 7) 1 0 0);
      [cbn; lia | reflexivity | reflexivity].
Defined.

(** ** After a creation that failed on a null handle *)

(** X16.  When [OnCreate] fails because a handle of the constructed controller
    is null, that controller stays in the message path: every later message is
    first offered to it.  If its engine handle is there (only the view was
    missing) no message faults and a font change still reloads the fonts; if
    its engine handle is null, exactly the font changes the offer leaves
    unhandled fault. *)
Theorem MessageHandler_after_failed_OnCreate_still_offers
  (env : Env) (w : FlutterWindow)
  (env' : Env) (hwnd : HWND) (message : UINT) (wparam : WPARAM) (lparam : LPARAM) :
  Win32Window_OnCreate env = true ->
  engine (constructed env w) = None \/ view (constructed env w) = None ->
  let c := constructed env w in
  let run := MessageHandler env' hwnd message wparam lparam (final (OnCreate env w)) in
  (exists rest,
     calls run = HandleTopLevelWindowProc_call c hwnd message wparam lparam :: rest /\
     count is_offer rest = 0%nat) /\
  (faulted run = true <->
     message = WM_FONTCHANGE /\
     HandleTopLevelWindowProc env' c hwnd message wparam lparam = None /\
     engine c = None).
Proof.
  intros Hbase Hnull c run. subst run c.
  rewrite (OnCreate_null_handle env w Hbase Hnull). cbn [final].
  rewrite MessageHandler_run.
  unfold engine_result, offer_calls, engine_of.
  cbn [set_flutter_controller_ flutter_controller_].
  destruct (HandleTopLevelWindowProc env' (constructed env w) hwnd message wparam lparam)
    as [r|].
  - cbn [calls faulted app]. split.
    + exists []. split; reflexivity.
    + split; [discriminate | intros (_ & H & _); discriminate].
  - destruct (Z.eqb_spec message WM_FONTCHANGE) as [Hfont|Hfont]; cbn [andb].
    + destruct (engine (constructed env w)) as [e|] eqn:He;
        cbn [non_null negb calls faulted app].
      * split.
        -- eexists. split; [reflexivity|].
           rewrite count_app.
           replace (count is_offer
                      (local_calls env' message
                         (set_flutter_controller_ (Some (constructed env w)) w)))
             with 0%nat by (symmetry; now apply count_local_calls).
           reflexivity.
        -- split; [discriminate | intros (_ & _ & H); discriminate].
      * split; [exists []; split; reflexivity|]. split; auto.
    + cbn [calls faulted app]. split.
      * eexists. split; [reflexivity|].
        rewrite count_app.
        replace (count is_offer
                   (local_calls env' message
                      (set_flutter_controller_ (Some (constructed env w)) w)))
          with 0%nat by (symmetry; now apply count_local_calls).
        reflexivity.
      * split; [discriminate | intros (H & _); contradiction].
Qed.

Lemma MessageHandler_after_failed_OnCreate_witness :
  faulted
    (MessageHandler (sample_env true engineless_controller None key_up)
       1 WM_FONTCHANGE 0 0
       (final (OnCreate (sample_env true engineless_controller None key_up)
                 (fresh_window [])))) = true.
Proof.
  apply (MessageHandler_after_failed_OnCreate_still_offers
           (sample_env true engineless_controller None key_up) (fresh_window [])
           (sample_env true engineless_controller None key_up)
           1 WM_FONTCHANGE 0 0 eq_refl (or_introl eq_refl)).
  repeat split.
Defined.
